(** * OpenMM-Plumed-MPI: the PlumedForce descriptor and the reference kernel

    A shallow embedding of
      - [src/openmmapi/include/PlumedForce.h]  (class [PlumedForce]) and
      - [src/platforms/reference/src/ReferencePlumedKernels.cpp]
        (class [ReferenceCalcPlumedForceKernel]: constructor, [initialize],
        [execute]).

    C++ [double] is IEEE-754 binary64, embedded as Rocq's primitive [float];
    [int] values are embedded as [Z], with the conversion to 32 bits written
    out where the code narrows ([to_int]); [std::vector<T>] is [list T], indexed
    and updated with stdpp's lookup and insert; [std::string] is [string].
    Member functions run in a small state-and-exception monad over the kernel
    object and the process' MPI runtime; every [plumed_cmd] is recorded, in
    order, in the interpreter handle the kernel owns. *)

From Stdlib Require Import ZArith List String Ascii Bool Lia Floats Sorted.
From stdpp Require Import base list.
Import ListNotations.

Local Open Scope string_scope.
Local Open Scope list_scope.
Local Open Scope Z_scope.

(** ** Basic C/C++ types *)

Definition double := float.

(** [OpenMM::RealVec] (three doubles). *)
Record RealVec := mkRealVec { vx : double; vy : double; vz : double }.

(** The conversion of an integer to a C++ [int] (32 bits, two's complement):
    the low 32 bits are kept, so a value outside [-2^31, 2^31) wraps. *)
Definition to_int (z : Z) : Z := (z + 2 ^ 31) mod 2 ^ 32 - 2 ^ 31.
Arguments to_int z : simpl never.

(** An MPI communicator handle and a C stream handle: opaque to this code. *)
Definition MPI_Comm := Z.
Definition FILE_ptr := Z.
Definition stdout : FILE_ptr := 1.

(** [std::string::c_str()] read as a C string: the characters before the
    first NUL. *)
Fixpoint c_str (s : string) : string :=
  match s with
  | EmptyString => EmptyString
  | String c s' => if Ascii.eqb c "000"%char then EmptyString else String c (c_str s')
  end.

Fixpoint no_nul (s : string) : bool :=
  match s with
  | EmptyString => true
  | String c s' => negb (Ascii.eqb c "000"%char) && no_nul s'
  end.

(** ** Exceptions *)

Inductive OpenMMException := Exception (msg : string).

Inductive Result (A : Type) :=
| Ok (a : A)
| Throw (e : OpenMMException).
Arguments Ok {A} a.
Arguments Throw {A} e.

Definition is_ok {A} (r : Result A) : bool :=
  match r with Ok _ => true | Throw _ => false end.

(** ** The force descriptor: [PlumedForce.h] *)

Module PlumedForce.

Record t := mk {
  script : string;
  intra_comm : MPI_Comm;
  inter_comm : MPI_Comm;
  temperature : double;
  masses : list double;
  logStream : FILE_ptr;
  restart : bool
}.

Definition getScript (f : t) : string := script f.
Definition getIntracom (f : t) : MPI_Comm := intra_comm f.
Definition getIntercom (f : t) : MPI_Comm := inter_comm f.
Definition getTemperature (f : t) : double := temperature f.
Definition getMasses (f : t) : list double := masses f.
Definition getLogStream (f : t) : FILE_ptr := logStream f.
Definition getRestart (f : t) : bool := restart f.

(** [bool usesPeriodicBoundaryConditions() const { return false; }] *)
Definition usesPeriodicBoundaryConditions (f : t) : bool := false.

Definition setTemperature (T : double) (f : t) : t :=
  mk (script f) (intra_comm f) (inter_comm f) T (masses f) (logStream f) (restart f).
Definition setMasses (m : list double) (f : t) : t :=
  mk (script f) (intra_comm f) (inter_comm f) (temperature f) m (logStream f) (restart f).
Definition setLogStream (s : FILE_ptr) (f : t) : t :=
  mk (script f) (intra_comm f) (inter_comm f) (temperature f) (masses f) s (restart f).
Definition setRestart (r : bool) (f : t) : t :=
  mk (script f) (intra_comm f) (inter_comm f) (temperature f) (masses f) (logStream f) r.

(** Modelled from the spec: the constructor's body (PlumedForce.cpp) is
    missing; the header documents the defaults: temperature -1, no mass
    overrides, log stream [stdout], restart [false]. *)
Definition create (script : string) (intra inter : MPI_Comm) : t :=
  mk script intra inter (-1)%float [] stdout false.

End PlumedForce.

(** ** The host engine as this code sees it (OpenMM) *)

(** [NonbondedForce]: per-particle (charge, sigma, epsilon) and whether its
    nonbonded method is a periodic one. *)
Record NonbondedForce := mkNonbonded {
  nb_particles : list (double * double * double);
  nb_periodic : bool
}.

(** The forces of a [System]; [dynamic_cast<const NonbondedForce*>] succeeds on
    the first constructor only. *)
Inductive Force :=
| FNonbonded (nb : NonbondedForce)
| FPlumed (f : PlumedForce.t)
| FOther (periodic : bool).

Definition dynamic_cast_NonbondedForce (f : Force) : option NonbondedForce :=
  match f with FNonbonded nb => Some nb | _ => None end.

Definition Force_usesPeriodicBoundaryConditions (f : Force) : bool :=
  match f with
  | FNonbonded nb => nb_periodic nb
  | FPlumed p => PlumedForce.usesPeriodicBoundaryConditions p
  | FOther b => b
  end.

Definition index_out_of_range : OpenMMException :=
  Exception "Assertion failure.  Index out of range".

(** [NonbondedForce::getParticleParameters(i, charge, sigma, epsilon)]. *)
Definition getParticleParameters (nb : NonbondedForce) (i : nat)
  : Result (double * double * double) :=
  match nb_particles nb !! i with
  | Some p => Ok p
  | None => Throw index_out_of_range
  end.

Record System := mkSystem {
  sys_masses : list double;
  sys_forces : list Force
}.

Definition getNumParticles (s : System) : Z := Z.of_nat (length (sys_masses s)).
Definition getNumForces (s : System) : Z := Z.of_nat (length (sys_forces s)).

Definition getParticleMass (s : System) (i : nat) : Result double :=
  match sys_masses s !! i with
  | Some m => Ok m
  | None => Throw index_out_of_range
  end.

Definition getForce (s : System) (j : nat) : Result Force :=
  match sys_forces s !! j with
  | Some f => Ok f
  | None => Throw index_out_of_range
  end.

(** [System::usesPeriodicBoundaryConditions()]: some force is periodic. *)
Definition System_usesPeriodicBoundaryConditions (s : System) : bool :=
  existsb Force_usesPeriodicBoundaryConditions (sys_forces s).

(** [ReferencePlatform::PlatformData], the fields this kernel reads. The step
    count is kept as it is stored; [execute] reads it into an [int]. *)
Record PlatformData := mkPlatformData {
  stepCount : Z;
  positions : list RealVec;
  forces : list RealVec;
  periodicBoxVectors : list RealVec
}.

Record ContextImpl := mkContextImpl {
  integrator_stepSize : double;
  platformData : PlatformData
}.

Definition extractPositions (context : ContextImpl) : list RealVec :=
  positions (platformData context).
Definition extractForces (context : ContextImpl) : list RealVec :=
  forces (platformData context).
Definition extractBoxVectors (context : ContextImpl) : list RealVec :=
  periodicBoxVectors (platformData context).

(** ** The PLUMED library as this code sees it *)

(** What a [plumed_cmd] passes behind its untyped pointer. *)
Inductive Payload :=
| PNull
| PComm (c : MPI_Comm)
| PInt (z : Z)
| PDouble (d : double)
| PStr (s : string)
| PStream (f : FILE_ptr)
| PDoubles (l : list double)
| PVecs (l : list RealVec)
| PScratch (n : nat)
| PIntOut
| PDoubleOut.

Record Cmd := mkCmd { cmd_key : string; cmd_val : Payload }.

(** An interpreter handle ([plumed]): the commands it has received, oldest
    first. *)
Record plumed := mkPlumed { received : list Cmd }.

Definition plumed_create : plumed := mkPlumed [].

(** What the kernel gets from outside: from PLUMED the API version behind
    "getApiVersion" and the bias energy behind "getBias" (a function of what
    the interpreter has received), from MPI the rank of this process in a
    communicator, from OpenMM the constant [BOLTZ] (SimTKOpenMMRealType.h). *)
Record Environment := mkEnvironment {
  env_apiVersion : Z;
  env_bias : list Cmd -> double;
  env_rank : MPI_Comm -> Z;
  BOLTZ : double
}.

(** ** [strtok] with the delimiters ["\r\n"] *)

Definition is_delim (c : ascii) : bool :=
  Ascii.eqb c "013"%char || Ascii.eqb c "010"%char.

Fixpoint skip_delims (s : string) : string :=
  match s with
  | EmptyString => EmptyString
  | String c s' => if is_delim c then skip_delims s' else s
  end.

(** The token that starts at [s] and what is left after the delimiter that
    ended it. *)
Fixpoint take_token (s : string) : string * string :=
  match s with
  | EmptyString => (EmptyString, EmptyString)
  | String c s' =>
      if is_delim c then (EmptyString, s')
      else let (tok, rest) := take_token s' in (String c tok, rest)
  end.

(** One call of [strtok] on the text not yet scanned: [None] is [NULL]. *)
Definition strtok (s : string) : option (string * string) :=
  match skip_delims s with
  | EmptyString => None
  | s1 => Some (take_token s1)
  end.

(** ** The kernel: [ReferencePlumedKernels.cpp]

    [Kernel] stands for the class [ReferenceCalcPlumedForceKernel]. *)

Module Kernel.

(** The data members of [ReferenceCalcPlumedForceKernel] the code uses. *)
Record t := mk {
  contextImpl : ContextImpl;
  plumedmain : plumed;
  hasInitialized : bool;
  usesPeriodic : bool;
  lastStepIndex : Z;
  masses : list double;
  charges : list double
}.

(** The constructor initialises [contextImpl], [hasInitialized(false)] and
    [lastStepIndex(0)]; the vectors start empty; [plumedmain] and
    [usesPeriodic] start with whatever the memory holds, given here as
    arguments. *)
Definition create (contextImpl : ContextImpl)
    (plumedmain0 : plumed) (usesPeriodic0 : bool) : t :=
  mk contextImpl plumedmain0 false usesPeriodic0 0 [] [].

Definition set_plumedmain (p : plumed) (k : t) : t :=
  mk (contextImpl k) p (hasInitialized k) (usesPeriodic k) (lastStepIndex k)
     (masses k) (charges k).
Definition set_hasInitialized (b : bool) (k : t) : t :=
  mk (contextImpl k) (plumedmain k) b (usesPeriodic k) (lastStepIndex k)
     (masses k) (charges k).
Definition set_usesPeriodic (b : bool) (k : t) : t :=
  mk (contextImpl k) (plumedmain k) (hasInitialized k) b (lastStepIndex k)
     (masses k) (charges k).
Definition set_lastStepIndex (s : Z) (k : t) : t :=
  mk (contextImpl k) (plumedmain k) (hasInitialized k) (usesPeriodic k) s
     (masses k) (charges k).
Definition set_masses (m : list double) (k : t) : t :=
  mk (contextImpl k) (plumedmain k) (hasInitialized k) (usesPeriodic k)
     (lastStepIndex k) m (charges k).
Definition set_charges (c : list double) (k : t) : t :=
  mk (contextImpl k) (plumedmain k) (hasInitialized k) (usesPeriodic k)
     (lastStepIndex k) (masses k) c.

(** What a member function runs on: the kernel object and whether the
    process' MPI runtime is initialised. *)
Record World := mkWorld { self : t; mpi_initialized : bool }.

(** State and exceptions: a [throw] keeps the state reached so far (the
    members already written, the commands already issued). *)
Definition M (A : Type) : Type := World -> Result A * World.

Definition ret {A} (a : A) : M A := fun w => (Ok a, w).
Definition bind {A B} (m : M A) (f : A -> M B) : M B :=
  fun w => match m w with
           | (Ok a, w') => f a w'
           | (Throw e, w') => (Throw e, w')
           end.
Definition throw {A} (e : OpenMMException) : M A := fun w => (Throw e, w).
Definition gets {A} (f : t -> A) : M A := fun w => (Ok (f (self w)), w).
Definition modify (f : t -> t) : M unit :=
  fun w => (Ok tt, mkWorld (f (self w)) (mpi_initialized w)).
Definition lift {A} (r : Result A) : M A := fun w => (r, w).
Definition when (b : bool) (m : M unit) : M unit := if b then m else ret tt.

Declare Scope kernel_scope.
Delimit Scope kernel_scope with kernel.
Notation "x <- m ;; k" := (bind m (fun x => k))
  (at level 100, m at next level, right associativity) : kernel_scope.
Notation "m ;; k" := (bind m (fun _ => k))
  (at level 100, right associativity) : kernel_scope.
Local Open Scope kernel_scope.

(** [for (int i = 0; i < n; i++) body(i)] *)
Fixpoint for_each (l : list nat) (body : nat -> M unit) : M unit :=
  match l with
  | [] => ret tt
  | i :: l' => body i ;; for_each l' body
  end.
Definition for_upto (n : Z) (body : nat -> M unit) : M unit :=
  for_each (seq 0 (Z.to_nat n)) body.

Definition MPI_Initialized : M bool := fun w => (Ok (mpi_initialized w), w).
Definition MPI_Init : M unit := fun w => (Ok tt, mkWorld (self w) true).

(** [plumed_cmd(plumedmain, key, val)] *)
Definition plumed_cmd (key : string) (val : Payload) : M unit :=
  modify (fun k =>
    set_plumedmain (mkPlumed (received (plumedmain k) ++ [mkCmd key val])) k).

Definition unsupported_api : OpenMMException :=
  Exception "Unsupported API version.  Upgrade PLUMED to a newer version.".
Definition masses_mismatch : OpenMMException :=
  Exception "The number of PLUMED masses is different from the number of particles!".

(** The [while (line != NULL)] loop over [strtok]'s tokens. Every token
    takes at least one character off the text, so the length of the text
    plus one is fuel enough ([readInputLine_loop_fuel] below). *)
Fixpoint readInputLine_loop (fuel : nat) (line : option (string * string))
  : M unit :=
  match fuel with
  | O => ret tt
  | S fuel' =>
      match line with
      | None => ret tt
      | Some (tok, rest) =>
          plumed_cmd "readInputLine" (PStr tok) ;;
          readInputLine_loop fuel' (strtok rest)
      end
  end.

Section WithEnvironment.
Variable env : Environment.

(** [initialize], first block: "Construct and initialize the PLUMED
    interface object", up to the "init" command. *)
Definition init_interface (system : System) (force : PlumedForce.t) : M unit :=
  modify (set_plumedmain plumed_create) ;;
  done_already <- MPI_Initialized ;;
  when (negb done_already) MPI_Init ;;
  let intra_comm := PlumedForce.getIntracom force in
  let inter_comm := PlumedForce.getIntercom force in
  let intra_comm_rank := env_rank env intra_comm in
  when (intra_comm_rank =? 0)
    (plumed_cmd "GREX setMPIIntercomm" (PComm inter_comm)) ;;
  plumed_cmd "GREX setMPIIntracomm" (PComm intra_comm) ;;
  plumed_cmd "GREX init" PNull ;;
  plumed_cmd "setMPIComm" (PComm intra_comm) ;;
  modify (set_hasInitialized true) ;;
  plumed_cmd "getApiVersion" PIntOut ;;
  let apiVersion := env_apiVersion env in
  when (apiVersion <? 4) (throw unsupported_api) ;;
  let precision := 8 in
  plumed_cmd "setRealPrecision" (PInt precision) ;;
  let conversion := 1%float in
  plumed_cmd "setMDEnergyUnits" (PDouble conversion) ;;
  plumed_cmd "setMDLengthUnits" (PDouble conversion) ;;
  plumed_cmd "setMDTimeUnits" (PDouble conversion) ;;
  plumed_cmd "setMDEngine" (PStr "OpenMM") ;;
  plumed_cmd "setLog" (PStream (PlumedForce.getLogStream force)) ;;
  let numParticles := getNumParticles system in
  plumed_cmd "setNatoms" (PInt numParticles) ;;
  dt <- gets (fun k => integrator_stepSize (contextImpl k)) ;;
  plumed_cmd "setTimestep" (PDouble dt) ;;
  let kT := (PlumedForce.getTemperature force * BOLTZ env)%float in
  when (0 <=? kT)%float (plumed_cmd "setKbT" (PDouble kT)) ;;
  let restart := if PlumedForce.getRestart force then 1 else 0 in
  plumed_cmd "setRestart" (PInt restart) ;;
  plumed_cmd "init" PNull.

(** [initialize], the [if (apiVersion > 7) ... else ...] that feeds the
    script to the interpreter. *)
Definition read_script (force : PlumedForce.t) : M unit :=
  let apiVersion := env_apiVersion env in
  if 7 <? apiVersion then
    plumed_cmd "readInputLines" (PStr (c_str (PlumedForce.getScript force)))
  else
    let scriptChars := c_str (PlumedForce.getScript force) in
    readInputLine_loop (S (String.length scriptChars)) (strtok scriptChars).

(** [initialize], the block "Record the particle masses". *)
Definition record_masses (system : System) (force : PlumedForce.t) : M unit :=
  let numParticles := getNumParticles system in
  modify (fun k => set_masses (resize (Z.to_nat numParticles) 0%float (masses k)) k) ;;
  let plumedMasses := PlumedForce.getMasses force in
  if Z.of_nat (length plumedMasses) =? 0 then
    for_upto numParticles (fun i =>
      m <- lift (getParticleMass system i) ;;
      modify (fun k => set_masses (<[i := m]> (masses k)) k))
  else if Z.of_nat (length plumedMasses) =? numParticles then
    modify (set_masses plumedMasses)
  else
    throw masses_mismatch.

(** [initialize], the block "If there's a NonbondedForce, get charges
    from it". *)
Definition record_charges (system : System) : M unit :=
  let numParticles := getNumParticles system in
  for_upto (getNumForces system) (fun j =>
    f <- lift (getForce system j) ;;
    match dynamic_cast_NonbondedForce f with
    | Some nonbonded =>
        modify (fun k =>
          set_charges (resize (Z.to_nat numParticles) 0%float (charges k)) k) ;;
        for_upto numParticles (fun i =>
          p <- lift (getParticleParameters nonbonded i) ;;
          modify (fun k => set_charges (<[i := p.1.1]> (charges k)) k))
    | None => ret tt
    end).

(** [initialize]: its blocks, in the order of the source. *)
Definition initialize (system : System) (force : PlumedForce.t) : M unit :=
  init_interface system force ;;
  read_script force ;;
  modify (set_usesPeriodic (System_usesPeriodicBoundaryConditions system)) ;;
  record_masses system force ;;
  record_charges system.

(** [execute]. The step index is the [int] that [data->stepCount] is read
    into ([int step = data->stepCount], a conversion to 32 bits): it is what
    "setStep" carries and what is compared with [lastStepIndex]; the two flags
    are not used. The bias forces are added by PLUMED
    itself into the buffer passed with "setForces": the kernel only hands the
    buffer over and returns the energy read with "getBias". *)
Definition execute (context : ContextImpl)
    (includeForces includeEnergy : bool) : M double :=
  (* Pass the current state to PLUMED. *)
  let data := platformData context in
  let step := to_int (stepCount data) in
  plumed_cmd "setStep" (PInt step) ;;
  masses <- gets masses ;;
  plumed_cmd "setMasses" (PDoubles masses) ;;
  charges <- gets charges ;;
  when (0 <? Z.of_nat (length charges))
    (plumed_cmd "setCharges" (PDoubles charges)) ;;
  let pos := extractPositions context in
  plumed_cmd "setPositions" (PVecs pos) ;;
  let force := extractForces context in
  plumed_cmd "setForces" (PVecs force) ;;
  usesPeriodic <- gets usesPeriodic ;;
  when usesPeriodic
    (let boxVectors := extractBoxVectors context in
     plumed_cmd "setBox" (PVecs boxVectors)) ;;
  plumed_cmd "setVirial" (PScratch 9) ;;
  (* Calculate the forces and energy. *)
  plumed_cmd "prepareCalc" PNull ;;
  plumed_cmd "performCalcNoUpdate" PNull ;;
  lastStepIndex <- gets lastStepIndex ;;
  when (negb (step =? lastStepIndex))
    (plumed_cmd "update" PNull ;;
     modify (set_lastStepIndex step)) ;;
  plumed_cmd "getBias" PDoubleOut ;;
  energy <- gets (fun k => env_bias env (received (plumedmain k))) ;;
  ret energy.

(** [execute] called once per context of [contexts], in order. *)
Fixpoint execute_all (contexts : list ContextImpl) : M (list double) :=
  match contexts with
  | [] => ret []
  | context :: rest =>
      e <- execute context true true ;;
      es <- execute_all rest ;;
      ret (e :: es)
  end.

End WithEnvironment.

End Kernel.

(** ** Reading the command log *)

Definition key_is (key : string) (c : Cmd) : bool := String.eqb (cmd_key c) key.

(** How many commands with this key a log holds. *)
Fixpoint count_cmd (key : string) (l : list Cmd) : nat :=
  match l with
  | [] => O
  | c :: l' => ((if key_is key c then 1 else 0) + count_cmd key l')%nat
  end.

(** The payloads of the commands with this key, in order. *)
Fixpoint payloads_of (key : string) (l : list Cmd) : list Payload :=
  match l with
  | [] => []
  | c :: l' => if key_is key c then cmd_val c :: payloads_of key l' else payloads_of key l'
  end.

(** The script-ingestion commands of a log, in order. *)
Definition is_ingestion (c : Cmd) : bool :=
  key_is "readInputLines" c || key_is "readInputLine" c.

Fixpoint ingestion (l : list Cmd) : list Cmd :=
  match l with
  | [] => []
  | c :: l' => if is_ingestion c then c :: ingestion l' else ingestion l'
  end.

(** The "update" commands of a log that belong to step [s]: those issued
    while [s] is the step index last announced with "setStep". [cur] is the
    step index in force when the log starts. *)
Fixpoint updates_from (cur : option Z) (s : Z) (l : list Cmd) : nat :=
  match l with
  | [] => O
  | c :: l' =>
      if key_is "setStep" c then
        match cmd_val c with
        | PInt z => updates_from (Some z) s l'
        | _ => updates_from cur s l'
        end
      else if key_is "update" c then
        ((match cur with
          | Some z => if (z =? s)%Z then 1 else 0
          | None => 0
          end) + updates_from cur s l')%nat
      else updates_from cur s l'
  end.

Definition updates_for (s : Z) (l : list Cmd) : nat := updates_from None s l.

(** The commands the interpreter of [w'] received after those of [w]. *)
Definition issued (w w' : Kernel.World) : list Cmd :=
  drop (length (received (Kernel.plumedmain (Kernel.self w))))
       (received (Kernel.plumedmain (Kernel.self w'))).

(** The commands the interpreter of [w] has received since it was created. *)
Definition log_of (w : Kernel.World) : list Cmd :=
  received (Kernel.plumedmain (Kernel.self w)).

(** The step indices of a sequence of calls: for each context the [int] that
    [execute] reads its step count into. *)
Definition steps_of (contexts : list ContextImpl) : list Z :=
  map (fun c => to_int (stepCount (platformData c))) contexts.

(** The non-empty lines of a text, split at carriage returns and newlines:
    what the spec calls submitting the script line by line. [cur] is the line
    read so far. *)
Fixpoint lines_from (cur : string) (s : string) : list string :=
  match s with
  | EmptyString =>
      match cur with EmptyString => [] | _ => [cur] end
  | String c s' =>
      if is_delim c then
        match cur with
        | EmptyString => lines_from EmptyString s'
        | _ => cur :: lines_from EmptyString s'
        end
      else lines_from (cur ++ String c EmptyString)%string s'
  end.

Definition script_lines (s : string) : list string := lines_from EmptyString s.

(** A world whose kernel has just been constructed. *)
Definition constructed (context : ContextImpl) (plumedmain0 : plumed)
    (usesPeriodic0 mpi : bool) : Kernel.World :=
  Kernel.mkWorld (Kernel.create context plumedmain0 usesPeriodic0) mpi.

(** The commands one call of [execute] issues, for a kernel [k]. *)
Definition execute_cmds (k : Kernel.t) (context : ContextImpl) : list Cmd :=
  let step := to_int (stepCount (platformData context)) in
  [mkCmd "setStep" (PInt step); mkCmd "setMasses" (PDoubles (Kernel.masses k))]
  ++ (if 0 <? Z.of_nat (length (Kernel.charges k))
      then [mkCmd "setCharges" (PDoubles (Kernel.charges k))] else [])
  ++ [mkCmd "setPositions" (PVecs (extractPositions context));
      mkCmd "setForces" (PVecs (extractForces context))]
  ++ (if Kernel.usesPeriodic k
      then [mkCmd "setBox" (PVecs (extractBoxVectors context))] else [])
  ++ [mkCmd "setVirial" (PScratch 9); mkCmd "prepareCalc" PNull;
      mkCmd "performCalcNoUpdate" PNull]
  ++ (if step =? Kernel.lastStepIndex k then [] else [mkCmd "update" PNull])
  ++ [mkCmd "getBias" PDoubleOut].

(** The commands a sequence of [execute] calls issues, for a kernel [k]:
    between calls only [lastStepIndex] (and the log) changes. *)
Fixpoint execute_all_cmds (k : Kernel.t) (contexts : list ContextImpl) : list Cmd :=
  match contexts with
  | [] => []
  | c :: rest =>
      execute_cmds k c ++
      execute_all_cmds
        (Kernel.set_lastStepIndex (to_int (stepCount (platformData c))) k) rest
  end.

(** How many times, along [steps], the step index becomes [s] coming from a
    different one; [prev] is the index before the first. *)
Fixpoint step_changes (prev s : Z) (steps : list Z) : nat :=
  match steps with
  | [] => O
  | x :: rest =>
      ((if (x =? prev)%Z then 0 else if (x =? s)%Z then 1 else 0)
       + step_changes x s rest)%nat
  end.

(** How many times, along [steps], the step index differs from the one
    before it. *)
Fixpoint changes (prev : Z) (steps : list Z) : nat :=
  match steps with
  | [] => O
  | x :: rest => ((if (x =? prev)%Z then 0 else 1) + changes x rest)%nat
  end.

Definition first_is (s : Z) (steps : list Z) : bool :=
  match steps with
  | x :: _ => x =? s
  | [] => false
  end.

(** A world with [l] appended to the log of its interpreter. *)
Definition append_cmds (l : list Cmd) (w : Kernel.World) : Kernel.World :=
  Kernel.mkWorld
    (Kernel.set_plumedmain (mkPlumed (log_of w ++ l)) (Kernel.self w))
    (Kernel.mpi_initialized w).

(** The commands the first block of [initialize] issues before the API
    version is known, and those it issues once the version is accepted. *)
Definition grex_cmds (env : Environment) (force : PlumedForce.t) : list Cmd :=
  (if env_rank env (PlumedForce.getIntracom force) =? 0
   then [mkCmd "GREX setMPIIntercomm" (PComm (PlumedForce.getIntercom force))]
   else [])
  ++ [mkCmd "GREX setMPIIntracomm" (PComm (PlumedForce.getIntracom force));
      mkCmd "GREX init" PNull;
      mkCmd "setMPIComm" (PComm (PlumedForce.getIntracom force));
      mkCmd "getApiVersion" PIntOut].

Definition setup_cmds (env : Environment) (system : System) (force : PlumedForce.t)
    (dt : double) : list Cmd :=
  [mkCmd "setRealPrecision" (PInt 8);
   mkCmd "setMDEnergyUnits" (PDouble 1%float);
   mkCmd "setMDLengthUnits" (PDouble 1%float);
   mkCmd "setMDTimeUnits" (PDouble 1%float);
   mkCmd "setMDEngine" (PStr "OpenMM");
   mkCmd "setLog" (PStream (PlumedForce.getLogStream force));
   mkCmd "setNatoms" (PInt (getNumParticles system));
   mkCmd "setTimestep" (PDouble dt)]
  ++ (if (0 <=? PlumedForce.getTemperature force * BOLTZ env)%float
      then [mkCmd "setKbT"
              (PDouble (PlumedForce.getTemperature force * BOLTZ env)%float)]
      else [])
  ++ [mkCmd "setRestart" (PInt (if PlumedForce.getRestart force then 1 else 0));
      mkCmd "init" PNull].

(** The commands that feed the script to the interpreter. *)
Definition script_cmds (env : Environment) (force : PlumedForce.t) : list Cmd :=
  if 7 <? env_apiVersion env then
    [mkCmd "readInputLines" (PStr (c_str (PlumedForce.getScript force)))]
  else
    map (fun line => mkCmd "readInputLine" (PStr line))
        (script_lines (c_str (PlumedForce.getScript force))).

(** The world [initialize] is in when its first block is over: a new
    interpreter that has received [l], MPI up. *)
Definition interfaced (l : list Cmd) (w : Kernel.World) : Kernel.World :=
  Kernel.mkWorld
    (Kernel.set_hasInitialized true
       (Kernel.set_plumedmain (mkPlumed l) (Kernel.self w)))
    true.

(** The world [initialize] is in when it reaches the block that records the
    masses: the interpreter has received the three groups of commands and
    [usesPeriodic] is set. *)
Definition before_masses (env : Environment) (system : System) (force : PlumedForce.t)
    (w : Kernel.World) : Kernel.World :=
  Kernel.mkWorld
    (Kernel.set_usesPeriodic (System_usesPeriodicBoundaryConditions system)
       (Kernel.set_hasInitialized true
          (Kernel.set_plumedmain
             (mkPlumed
                (grex_cmds env force ++
                 setup_cmds env system force
                   (integrator_stepSize (Kernel.contextImpl (Kernel.self w))) ++
                 script_cmds env force))
             (Kernel.self w))))
    true.

(** A world with the mass cache, or the charge cache, replaced. *)
Definition with_masses (m : list double) (w : Kernel.World) : Kernel.World :=
  Kernel.mkWorld (Kernel.set_masses m (Kernel.self w)) (Kernel.mpi_initialized w).
Definition with_charges (c : list double) (w : Kernel.World) : Kernel.World :=
  Kernel.mkWorld (Kernel.set_charges c (Kernel.self w)) (Kernel.mpi_initialized w).

(** [w'] is [w] but for the charge cache. *)
Definition charges_only (w w' : Kernel.World) : Prop :=
  exists cs, w' = with_charges cs w.

(** A result that, if it is an exception, is one of [E]. *)
Definition throws_only {A} (E : OpenMMException -> Prop) (r : Result A) : Prop :=
  match r with
  | Ok _ => True
  | Throw e => E e
  end.

(** A computation that touches the charge cache only and throws in [E] only. *)
Definition charges_only_m {A} (E : OpenMMException -> Prop) (m : Kernel.M A) : Prop :=
  forall w, charges_only w (snd (m w)) /\ throws_only E (fst (m w)).

Definition is_index_error (e : OpenMMException) : Prop := e = index_out_of_range.

Definition has_nonbonded (system : System) : bool :=
  existsb (fun f => match dynamic_cast_NonbondedForce f with
                    | Some _ => true | None => false end)
          (sys_forces system).

(** ** The rest of the kernel *)


(** The commands of a log that come after the first one with this key. *)
Fixpoint after_key (key : string) (l : list Cmd) : list Cmd :=
  match l with
  | [] => []
  | c :: l' => if key_is key c then l' else after_key key l'
  end.

(** The lines a log submits with "readInputLine", in order. *)
Fixpoint submitted_lines (l : list Cmd) : list string :=
  match l with
  | [] => []
  | c :: l' =>
      if key_is "readInputLine" c then
        match cmd_val c with
        | PStr line => line :: submitted_lines l'
        | _ => submitted_lines l'
        end
      else submitted_lines l'
  end.

(** Whether a text holds a carriage return or a newline, and the text
    without them. *)
Fixpoint has_delim (s : string) : bool :=
  match s with
  | EmptyString => false
  | String c s' => is_delim c || has_delim s'
  end.

Fixpoint strip_delims (s : string) : string :=
  match s with
  | EmptyString => EmptyString
  | String c s' => if is_delim c then strip_delims s' else String c (strip_delims s')
  end.

Fixpoint concat_lines (lines : list string) : string :=
  match lines with
  | [] => EmptyString
  | line :: rest => (line ++ concat_lines rest)%string
  end.

(** The nonbonded forces of a system, in order. *)
Fixpoint nonbonded_forces (fs : list Force) : list NonbondedForce :=
  match fs with
  | [] => []
  | f :: fs' =>
      match dynamic_cast_NonbondedForce f with
      | Some nb => nb :: nonbonded_forces fs'
      | None => nonbonded_forces fs'
      end
  end.

(** The charges of the first [n] particles of a nonbonded force, and whether
    it has that many particles. *)
Definition nb_charges (n : nat) (nb : NonbondedForce) : list double :=
  take n (map (fun p => p.1.1) (nb_particles nb)).

Definition covers (n : nat) (nb : NonbondedForce) : bool :=
  (n <=? length (nb_particles nb))%nat.

(** The charge cache after the forces [fs] have been visited, starting from
    [cs]: every nonbonded force replaces it. *)
Fixpoint charges_after (n : nat) (cs : list double) (fs : list Force) : list double :=
  match fs with
  | [] => cs
  | f :: fs' =>
      match dynamic_cast_NonbondedForce f with
      | Some nb => charges_after n (nb_charges n nb) fs'
      | None => charges_after n cs fs'
      end
  end.

(** [body] run on every element of a list, in order. *)
Fixpoint for_list {A} (l : list A) (body : A -> Kernel.M unit) : Kernel.M unit :=
  match l with
  | [] => Kernel.ret tt
  | x :: l' => Kernel.bind (body x) (fun _ => for_list l' body)
  end.

(** The body of the loop over the forces in [record_charges]: what is done
    with one force, and with one particle of a nonbonded force. *)
Definition charge_of_particle (nonbonded : NonbondedForce) (i : nat) : Kernel.M unit :=
  Kernel.bind (Kernel.lift (getParticleParameters nonbonded i))
    (fun p => Kernel.modify
       (fun k => Kernel.set_charges (<[i := p.1.1]> (Kernel.charges k)) k)).

Definition charges_of_force (system : System) (f : Force) : Kernel.M unit :=
  match dynamic_cast_NonbondedForce f with
  | Some nonbonded =>
      Kernel.bind
        (Kernel.modify (fun k =>
           Kernel.set_charges
             (resize (Z.to_nat (getNumParticles system)) 0%float (Kernel.charges k)) k))
        (fun _ => Kernel.for_upto (getNumParticles system) (charge_of_particle nonbonded))
  | None => Kernel.ret tt
  end.

(** Whether the number of mass overrides is neither 0 nor the number of
    particles. *)
Definition masses_mismatched (system : System) (force : PlumedForce.t) : bool :=
  negb (Z.of_nat (length (PlumedForce.getMasses force)) =? 0)
  && negb (Z.of_nat (length (PlumedForce.getMasses force)) =? getNumParticles system).

(** ** Concrete inputs *)

(** [BOLTZ] as OpenMM defines it, [(BOLTZMANN * AVOGADRO) / KILO] with
    BOLTZMANN = 1.380649e-23, AVOGADRO = 6.02214076e23 and KILO = 1e3, each
    written as the double nearest to it: 0.0083144626181532403. *)
Definition openmm_BOLTZ : double :=
  ((0x1.0b0e6d55e647cp-76 * 0x1.fe185ca57c517p+78) / 1000)%float.

(** PLUMED with the given API version and a bias that is always zero, seen
    from rank 0, with OpenMM's [BOLTZ]. *)
Definition plumed_env (version : Z) : Environment :=
  mkEnvironment version (fun _ => 0%float) (fun _ => 0) openmm_BOLTZ.

Definition newline : string := String "010"%char EmptyString.

Definition ex_script : string :=
  ("d: DISTANCE ATOMS=1,2" ++ newline ++ newline ++ "PRINT ARG=d" ++ newline)%string.

(** A descriptor with its defaults: temperature -1, no mass overrides. *)
Definition ex_force : PlumedForce.t :=
  PlumedForce.mk ex_script 91 92 (-1)%float [] stdout false.

(** Two particles of masses 1 and 2; no nonbonded force, not periodic. *)
Definition ex_system : System :=
  mkSystem [1%float; 2%float] [FPlumed ex_force; FOther false].

(** The same particles with a periodic nonbonded force. *)
Definition ex_periodic_system : System :=
  mkSystem [1%float; 2%float]
    [FNonbonded (mkNonbonded [(0.5%float, 1%float, 1%float);
                              ((-0.5)%float, 1%float, 1%float)] true);
     FPlumed ex_force].

Definition ex_context (step : Z) : ContextImpl :=
  mkContextImpl 0.5%float
    (mkPlatformData step
       [mkRealVec 0%float 0%float 0%float; mkRealVec 1%float 0%float 0%float]
       [mkRealVec 0%float 0%float 0%float; mkRealVec 0%float 0%float 0%float]
       [mkRealVec 3%float 0%float 0%float; mkRealVec 0%float 3%float 0%float;
        mkRealVec 0%float 0%float 3%float]).

(** A kernel just constructed on [ex_context 0], MPI not yet initialised. *)
Definition ex_world : Kernel.World :=
  constructed (ex_context 0) (mkPlumed []) false false.

(** * Properties *)

(** ** The conversion to [int] *)

(** The conversion to [int] keeps what is in the range of [int] and forgets
    every multiple of 2^32. *)
Lemma to_int_in_range z : - 2 ^ 31 <= z < 2 ^ 31 -> to_int z = z.
Proof. intros H. unfold to_int. rewrite Z.mod_small; lia. Qed.

Lemma to_int_range z : - 2 ^ 31 <= to_int z < 2 ^ 31.
Proof.
  unfold to_int. pose proof (Z.mod_pos_bound (z + 2 ^ 31) (2 ^ 32)). lia.
Qed.

Lemma to_int_wrap z k : to_int (z + k * 2 ^ 32) = to_int z.
Proof.
  unfold to_int. replace (z + k * 2 ^ 32 + 2 ^ 31) with (z + 2 ^ 31 + k * 2 ^ 32) by lia.
  rewrite Z.mod_add by lia. reflexivity.
Qed.

(** Step counts within the range of [int] are their own step indices. *)
Lemma steps_of_in_range contexts :
  Forall (fun c => - 2 ^ 31 <= stepCount (platformData c) < 2 ^ 31) contexts ->
  steps_of contexts = map (fun c => stepCount (platformData c)) contexts.
Proof.
  intros H. unfold steps_of. induction H as [|c cs Hc _ IH]; [reflexivity|].
  cbn [map]. rewrite to_int_in_range by exact Hc. rewrite IH. reflexivity.
Qed.


(** ** One call of [execute] *)

Section Execute.
Variable env : Environment.

Lemma plumed_cmd_run key val w :
  Kernel.plumed_cmd key val w =
  (Ok tt, Kernel.mkWorld
            (Kernel.set_plumedmain (mkPlumed (log_of w ++ [mkCmd key val]))
               (Kernel.self w))
            (Kernel.mpi_initialized w)).
Proof. reflexivity. Qed.

(** [execute] never throws; it appends [execute_cmds] to the log, leaves
    [lastStepIndex] at the step it was called for and returns the bias the
    library reports. *)
Lemma execute_run context includeForces includeEnergy w :
  let log' := log_of w ++ execute_cmds (Kernel.self w) context in
  Kernel.execute env context includeForces includeEnergy w =
  (Ok (env_bias env log'),
   Kernel.mkWorld
     (Kernel.set_lastStepIndex (to_int (stepCount (platformData context)))
        (Kernel.set_plumedmain (mkPlumed log') (Kernel.self w)))
     (Kernel.mpi_initialized w)).
Proof.
  destruct w as [[ci [log] hi up last ms cs] mpi].
  unfold Kernel.execute, execute_cmds, log_of; cbn.
  destruct (0 <? Z.of_nat (length cs)); cbn;
    (destruct up; cbn;
     (destruct (to_int (stepCount (platformData context)) =? last) eqn:E; cbn;
      [apply Z.eqb_eq in E; subst last |];
      rewrite <- ?app_assoc; reflexivity)).
Qed.

End Execute.

(** ** Sequences of [execute] calls *)

Section ExecuteAll.
Variable env : Environment.

Lemma append_cmds_nil w : append_cmds [] w = w.
Proof.
  destruct w as [[ci [log] hi up last ms cs] mpi].
  unfold append_cmds, log_of; cbn. rewrite app_nil_r. reflexivity.
Qed.

(** [execute_all_cmds] reads four members of the kernel only. *)
Lemma execute_all_cmds_ext contexts : forall k k',
  Kernel.lastStepIndex k = Kernel.lastStepIndex k' ->
  Kernel.masses k = Kernel.masses k' ->
  Kernel.charges k = Kernel.charges k' ->
  Kernel.usesPeriodic k = Kernel.usesPeriodic k' ->
  execute_all_cmds k contexts = execute_all_cmds k' contexts.
Proof.
  induction contexts as [|c rest IH]; intros k k' Hl Hm Hc Hu; [reflexivity|].
  cbn [execute_all_cmds]. f_equal.
  - unfold execute_cmds. rewrite Hl, Hm, Hc, Hu. reflexivity.
  - apply IH; cbn; auto.
Qed.

(** A sequence of [execute] calls never throws; it appends
    [execute_all_cmds] to the log and changes nothing else but
    [lastStepIndex]. *)
Lemma execute_all_run contexts : forall w,
  exists energies,
    Kernel.execute_all env contexts w =
    (Ok energies,
     Kernel.mkWorld
       (Kernel.set_lastStepIndex
          (fold_left (fun _ x => x) (steps_of contexts)
             (Kernel.lastStepIndex (Kernel.self w)))
          (Kernel.set_plumedmain
             (mkPlumed (log_of w ++ execute_all_cmds (Kernel.self w) contexts))
             (Kernel.self w)))
       (Kernel.mpi_initialized w)).
Proof.
  induction contexts as [|c rest IH]; intros w.
  - exists []. destruct w as [[ci [log] hi up last ms cs] mpi].
    unfold log_of; cbn. rewrite app_nil_r. reflexivity.
  - cbn [Kernel.execute_all]. unfold Kernel.bind.
    rewrite execute_run. cbv zeta iota beta.
    match goal with |- context [Kernel.execute_all env rest ?w1] =>
      destruct (IH w1) as [es Hes]; rewrite Hes end.
    eexists. unfold Kernel.ret. f_equal.
    unfold log_of. cbn [Kernel.self Kernel.mpi_initialized Kernel.plumedmain
      Kernel.set_lastStepIndex Kernel.set_plumedmain received
      Kernel.lastStepIndex Kernel.contextImpl Kernel.hasInitialized
      Kernel.usesPeriodic Kernel.masses Kernel.charges steps_of map fold_left
      execute_all_cmds].
    rewrite <- app_assoc.
    rewrite (execute_all_cmds_ext rest
               (Kernel.set_lastStepIndex _ (Kernel.set_plumedmain _ _))
               (Kernel.set_lastStepIndex (to_int (stepCount (platformData c))) (Kernel.self w)))
      by reflexivity.
    reflexivity.
Qed.

End ExecuteAll.

(** ** Counting the "update" commands *)

Section Updates.
Variable env : Environment.

Lemma count_cmd_app key l1 l2 :
  count_cmd key (l1 ++ l2) = (count_cmd key l1 + count_cmd key l2)%nat.
Proof. induction l1 as [|c l1 IH]; cbn; [reflexivity | rewrite IH; lia]. Qed.

Lemma updates_from_execute_cmds cur s k c rest :
  updates_from cur s (execute_cmds k c ++ rest) =
  ((if (to_int (stepCount (platformData c)) =? Kernel.lastStepIndex k)%Z then 0
    else if (to_int (stepCount (platformData c)) =? s)%Z then 1 else 0)
   + updates_from (Some (to_int (stepCount (platformData c)))) s rest)%nat.
Proof.
  unfold execute_cmds.
  destruct (0 <? Z.of_nat (length (Kernel.charges k)));
    destruct (Kernel.usesPeriodic k);
    destruct (to_int (stepCount (platformData c)) =? Kernel.lastStepIndex k);
    cbn; reflexivity.
Qed.

Lemma count_update_execute_cmds k c :
  count_cmd "update" (execute_cmds k c) =
  if to_int (stepCount (platformData c)) =? Kernel.lastStepIndex k then 0%nat else 1%nat.
Proof.
  unfold execute_cmds.
  destruct (0 <? Z.of_nat (length (Kernel.charges k)));
    destruct (Kernel.usesPeriodic k);
    destruct (to_int (stepCount (platformData c)) =? Kernel.lastStepIndex k);
    reflexivity.
Qed.

(** The updates a sequence of calls issues for [s] are the places where the
    step index becomes [s]. *)
Lemma updates_from_execute_all s contexts : forall k cur,
  updates_from cur s (execute_all_cmds k contexts) =
  step_changes (Kernel.lastStepIndex k) s (steps_of contexts).
Proof.
  induction contexts as [|c rest IH]; intros k cur; [reflexivity|].
  cbn [execute_all_cmds steps_of map step_changes].
  rewrite updates_from_execute_cmds, IH. reflexivity.
Qed.

Lemma count_update_execute_all contexts : forall k,
  count_cmd "update" (execute_all_cmds k contexts) =
  changes (Kernel.lastStepIndex k) (steps_of contexts).
Proof.
  induction contexts as [|c rest IH]; intros k; [reflexivity|].
  cbn [execute_all_cmds steps_of map changes].
  rewrite count_cmd_app, count_update_execute_cmds, IH. reflexivity.
Qed.

Lemma issued_execute_all contexts w :
  issued w (snd (Kernel.execute_all env contexts w)) =
  execute_all_cmds (Kernel.self w) contexts.
Proof.
  destruct (execute_all_run env contexts w) as [es ->].
  unfold issued, log_of; cbn. apply drop_app_length.
Qed.

Lemma issued_execute context a b w :
  issued w (snd (Kernel.execute env context a b w)) =
  execute_cmds (Kernel.self w) context.
Proof.
  rewrite execute_run. unfold issued, log_of; cbn. apply drop_app_length.
Qed.

(** *** Arithmetic of [step_changes] and [changes] *)

Lemma step_changes_same s : forall steps prev s',
  Forall (fun x => x = s) steps -> (step_changes prev s' steps <= 1)%nat.
Proof.
  assert (Hz : forall steps s', Forall (fun x => x = s) steps ->
                 step_changes s s' steps = 0%nat).
  { induction steps as [|x rest IH]; intros s' H; [reflexivity|].
    inversion H; subst. cbn. rewrite Z.eqb_refl. cbn. auto. }
  intros [|x rest] prev s' H; cbn; [lia|].
  inversion H; subst. rewrite (Hz rest s') by assumption.
  destruct (s =? prev), (s =? s'); cbn; lia.
Qed.

Lemma changes_same s : forall steps prev,
  Forall (fun x => x = s) steps -> (changes prev steps <= 1)%nat.
Proof.
  assert (Hz : forall steps, Forall (fun x => x = s) steps -> changes s steps = 0%nat).
  { induction steps as [|x rest IH]; intros H; [reflexivity|].
    inversion H; subst. cbn. rewrite Z.eqb_refl. cbn. auto. }
  intros [|x rest] prev H; cbn; [lia|].
  inversion H; subst. rewrite (Hz rest) by assumption.
  destruct (s =? prev); cbn; lia.
Qed.

Lemma step_changes_absent s : forall steps prev,
  Forall (fun x => x <> s) steps -> step_changes prev s steps = 0%nat.
Proof.
  induction steps as [|x rest IH]; intros prev H; [reflexivity|].
  inversion H as [|? ? Hx Hrest]; subst. cbn [step_changes].
  rewrite IH by assumption.
  apply Z.eqb_neq in Hx. rewrite Hx. destruct (x =? prev); reflexivity.
Qed.

(** Along a strictly increasing sequence that starts above [prev], every
    index is a change. *)
Lemma step_changes_increasing s : forall steps prev,
  StronglySorted Z.lt (prev :: steps) -> In s steps ->
  step_changes prev s steps = 1%nat.
Proof.
  induction steps as [|x rest IH]; intros prev H Hin; [destruct Hin|].
  inversion H as [|? ? Hs Hall]; subst.
  inversion Hall as [|? ? Hx Hrest]; subst.
  inversion Hs as [|? ? Hs' Hall']; subst.
  cbn [step_changes].
  destruct (x =? prev) eqn:E1; [apply Z.eqb_eq in E1; lia|].
  destruct (x =? s) eqn:E2.
  - apply Z.eqb_eq in E2; subst x.
    rewrite step_changes_absent; [reflexivity|].
    eapply Forall_impl; [exact Hall'|]. cbn; intros; lia.
  - apply Z.eqb_neq in E2. destruct Hin as [Heq | Hin]; [congruence|].
    rewrite (IH x) by (try constructor; assumption). reflexivity.
Qed.

Lemma changes_increasing : forall steps prev,
  StronglySorted Z.lt (prev :: steps) -> changes prev steps = length steps.
Proof.
  induction steps as [|x rest IH]; intros prev H; [reflexivity|].
  inversion H as [|? ? Hs Hall]; subst.
  inversion Hall as [|? ? Hx Hrest]; subst.
  cbn [changes length]. rewrite (IH x) by assumption.
  destruct (x =? prev) eqn:E1; [apply Z.eqb_eq in E1; lia | reflexivity].
Qed.

(** Monotonically increasing and pairwise distinct is strictly increasing. *)
Lemma increasing_distinct_lt : forall steps,
  StronglySorted Z.le steps -> NoDup steps -> StronglySorted Z.lt steps.
Proof.
  induction steps as [|x rest IH]; intros Hs Hd; [constructor|].
  inversion Hs as [|? ? Hs' Hall]; subst.
  apply NoDup_cons in Hd as [Hnin Hd].
  constructor; [auto|].
  rewrite Forall_forall in *. intros y Hy.
  specialize (Hall y Hy).
  assert (x <> y) by (intros ->; contradiction). lia.
Qed.

End Updates.

(** ** The tokens of [strtok] are the non-empty lines *)

Section Lines.

Lemma string_app_nil (s : string) : (s ++ "")%string = s.
Proof. induction s as [|c s IH]; cbn; [reflexivity | rewrite IH; reflexivity]. Qed.

Lemma string_app_assoc (a b c : string) :
  ((a ++ b) ++ c)%string = (a ++ (b ++ c))%string.
Proof. induction a as [|x a IH]; cbn; [reflexivity | rewrite IH; reflexivity]. Qed.

Lemma lines_from_take_token : forall s cur,
  lines_from cur s =
  match (cur ++ fst (take_token s))%string with
  | EmptyString => lines_from EmptyString (snd (take_token s))
  | line => line :: lines_from EmptyString (snd (take_token s))
  end.
Proof.
  induction s as [|c s IH]; intros cur.
  - cbn. rewrite string_app_nil. destruct cur; reflexivity.
  - cbn [lines_from take_token]. destruct (is_delim c).
    + cbn. rewrite string_app_nil. destruct cur; reflexivity.
    + rewrite IH. destruct (take_token s) as [tok rest]. cbn [fst snd].
      rewrite string_app_assoc. reflexivity.
Qed.

Lemma lines_from_skip_delims : forall s,
  lines_from EmptyString s = lines_from EmptyString (skip_delims s).
Proof.
  induction s as [|c s IH]; [reflexivity|].
  cbn [skip_delims]. destruct (is_delim c) eqn:E; [|reflexivity].
  cbn [lines_from]. rewrite E. exact IH.
Qed.

(** [script_lines] unfolds along [strtok]. *)
Lemma script_lines_strtok s :
  script_lines s =
  match strtok s with
  | None => []
  | Some (tok, rest) => tok :: script_lines rest
  end.
Proof.
  unfold script_lines, strtok. rewrite lines_from_skip_delims.
  destruct (skip_delims s) as [|c s1] eqn:E; [reflexivity|].
  assert (Hc : is_delim c = false).
  { clear -E. induction s as [|d s IH]; [discriminate|].
    cbn in E. destruct (is_delim d) eqn:Ed; [auto|]. congruence. }
  rewrite lines_from_take_token. cbn [take_token]. rewrite Hc.
  destruct (take_token s1) as [tok rest]. reflexivity.
Qed.

Lemma skip_delims_length s : (String.length (skip_delims s) <= String.length s)%nat.
Proof.
  induction s as [|c s IH]; cbn; [lia|]. destruct (is_delim c); cbn; lia.
Qed.

Lemma take_token_length s :
  (String.length (snd (take_token s)) <= Nat.pred (String.length s))%nat.
Proof.
  induction s as [|c s IH]; cbn; [lia|].
  destruct (is_delim c); cbn; [lia|].
  destruct (take_token s) as [tok rest]; cbn in *. lia.
Qed.

Lemma strtok_length s tok rest :
  strtok s = Some (tok, rest) -> (String.length rest < String.length s)%nat.
Proof.
  unfold strtok. pose proof (skip_delims_length s) as Hs.
  destruct (skip_delims s) as [|c s1] eqn:E; [discriminate|].
  intros H. pose proof (take_token_length (String c s1)) as Hl.
  assert (Ht : take_token (String c s1) = (tok, rest)) by congruence.
  rewrite Ht in Hl. cbn [snd String.length] in *. lia.
Qed.

End Lines.

(** ** The blocks of [initialize] *)

Section Initialize.
Variable env : Environment.

Lemma append_cmds_app l1 l2 w :
  append_cmds l2 (append_cmds l1 w) = append_cmds (l1 ++ l2) w.
Proof. unfold append_cmds, log_of; cbn. rewrite app_assoc. reflexivity. Qed.

Lemma plumed_cmd_append key val w :
  Kernel.plumed_cmd key val w = (Ok tt, append_cmds [mkCmd key val] w).
Proof. reflexivity. Qed.

(** The first block: a new interpreter receives [grex_cmds]; then either
    the version is refused, or [setup_cmds] follow. *)
Lemma init_interface_run system force w :
  Kernel.init_interface env system force w =
  if env_apiVersion env <? 4 then
    (Throw Kernel.unsupported_api, interfaced (grex_cmds env force) w)
  else
    (Ok tt,
     interfaced
       (grex_cmds env force ++
        setup_cmds env system force
          (integrator_stepSize (Kernel.contextImpl (Kernel.self w)))) w).
Proof.
  destruct w as [[ci [log] hi up last ms cs] mpi].
  unfold Kernel.init_interface, grex_cmds, setup_cmds, interfaced.
  cbn. destruct mpi; cbn;
    (destruct (env_rank env (PlumedForce.getIntracom force) =? 0); cbn;
     (destruct (env_apiVersion env <? 4); cbn; [reflexivity|];
      destruct (0 <=? PlumedForce.getTemperature force * BOLTZ env)%float; cbn;
      reflexivity)).
Qed.

(** The [strtok] loop has fuel enough: it stops on [NULL], having submitted
    the non-empty lines in order. *)
Lemma readInputLine_loop_fuel : forall fuel s w,
  (String.length s < fuel)%nat ->
  Kernel.readInputLine_loop fuel (strtok s) w =
  (Ok tt,
   append_cmds (map (fun line => mkCmd "readInputLine" (PStr line)) (script_lines s)) w).
Proof.
  induction fuel as [|fuel IH]; intros s w Hlen; [lia|].
  rewrite script_lines_strtok. cbn [Kernel.readInputLine_loop].
  destruct (strtok s) as [[tok rest]|] eqn:E.
  - apply strtok_length in E. unfold Kernel.bind.
    rewrite plumed_cmd_append, IH by lia.
    rewrite append_cmds_app. reflexivity.
  - cbn. rewrite append_cmds_nil. reflexivity.
Qed.

Lemma read_script_run force w :
  Kernel.read_script env force w = (Ok tt, append_cmds (script_cmds env force) w).
Proof.
  unfold Kernel.read_script, script_cmds.
  destruct (7 <? env_apiVersion env).
  - apply plumed_cmd_append.
  - cbv zeta. apply readInputLine_loop_fuel. lia.
Qed.

(** The loop that copies the masses of the system. *)
Lemma copy_masses_loop system : forall n a w,
  (a + n <= length (sys_masses system))%nat ->
  exists ms',
    Kernel.for_each (seq a n)
      (fun i => Kernel.bind (Kernel.lift (getParticleMass system i))
         (fun m => Kernel.modify
            (fun k => Kernel.set_masses (<[i := m]> (Kernel.masses k)) k))) w
    = (Ok tt, with_masses ms' w)
    /\ length ms' = length (Kernel.masses (Kernel.self w))
    /\ (forall i, (a <= i < a + n)%nat ->
                  (i < length (Kernel.masses (Kernel.self w)))%nat ->
                  ms' !! i = sys_masses system !! i)
    /\ (forall i, ~ (a <= i < a + n)%nat ->
                  ms' !! i = Kernel.masses (Kernel.self w) !! i).
Proof.
  induction n as [|n IH]; intros a w Hle.
  - exists (Kernel.masses (Kernel.self w)). cbn.
    split; [|split; [reflexivity | split; [intros; lia | reflexivity]]].
    destruct w as [[ci p hi up last ms cs] mpi]; reflexivity.
  - cbn [seq Kernel.for_each]. unfold Kernel.bind at 1.
    unfold Kernel.bind at 1. unfold Kernel.lift at 1, getParticleMass at 1.
    destruct (sys_masses system !! a) as [m|] eqn:Em.
    2:{ apply lookup_ge_None_1 in Em. lia. }
    cbn [Kernel.modify].
    match goal with |- context [Kernel.for_each _ _ ?w1] =>
      destruct (IH (S a) w1) as (ms' & Hrun & Hlen & Hin & Hout); [lia|];
      rewrite Hrun end.
    cbn [Kernel.self Kernel.set_masses Kernel.masses] in Hlen, Hin, Hout.
    rewrite length_insert in Hlen, Hin.
    exists ms'. split; [reflexivity|]. split; [exact Hlen|]. split.
    + intros i Hi Hlt. destruct (decide (i = a)) as [->|Hne].
      * rewrite Hout by lia. rewrite list_lookup_insert_eq by exact Hlt.
        symmetry; exact Em.
      * apply Hin; [lia | exact Hlt].
    + intros i Hi. rewrite Hout by lia.
      apply list_lookup_insert_ne. lia.
Qed.

(** The block that records the masses: the system's masses when there are
    no overrides, the overrides when there is one per particle, else an
    exception (the cache then holds what [resize] left). *)
Lemma record_masses_run system force w :
  Kernel.record_masses system force w =
  if Z.of_nat (length (PlumedForce.getMasses force)) =? 0 then
    (Ok tt, with_masses (sys_masses system) w)
  else if Z.of_nat (length (PlumedForce.getMasses force)) =? getNumParticles system then
    (Ok tt, with_masses (PlumedForce.getMasses force) w)
  else
    (Throw Kernel.masses_mismatch,
     with_masses (resize (length (sys_masses system)) 0%float
                    (Kernel.masses (Kernel.self w))) w).
Proof.
  unfold Kernel.record_masses. cbv zeta. unfold Kernel.bind at 1.
  cbn [Kernel.modify]. unfold getNumParticles. rewrite Nat2Z.id.
  destruct (Z.of_nat (length (PlumedForce.getMasses force)) =? 0).
  - unfold Kernel.for_upto. rewrite Nat2Z.id.
    match goal with |- context [Kernel.for_each _ _ ?w1] =>
      destruct (copy_masses_loop system (length (sys_masses system)) 0 w1)
        as (ms' & Hrun & Hlen & Hin & Hout); [lia|] end.
    rewrite Hrun.
    cbn [Kernel.self Kernel.set_masses Kernel.masses] in Hlen, Hin, Hout.
    rewrite length_resize in Hlen, Hin.
    assert (ms' = sys_masses system) as ->; [|reflexivity].
    apply list_eq. intros i.
    destruct (decide (i < length (sys_masses system))%nat) as [Hi|Hi].
    + apply Hin; lia.
    + rewrite (lookup_ge_None_2 ms') by lia.
      rewrite (lookup_ge_None_2 (sys_masses system)) by lia. reflexivity.
  - destruct (Z.of_nat (length (PlumedForce.getMasses force))
              =? Z.of_nat (length (sys_masses system))); reflexivity.
Qed.

(** *** The block that records the charges *)

Lemma charges_only_refl w : charges_only w w.
Proof.
  exists (Kernel.charges (Kernel.self w)).
  destruct w as [[ci p hi up last ms cs] mpi]; reflexivity.
Qed.

Lemma charges_only_trans w1 w2 w3 :
  charges_only w1 w2 -> charges_only w2 w3 -> charges_only w1 w3.
Proof. intros [c1 ->] [c2 ->]. exists c2. reflexivity. Qed.

Lemma charges_only_ret {A} E (a : A) : charges_only_m E (Kernel.ret a).
Proof. intros w. split; [apply charges_only_refl | exact I]. Qed.

Lemma charges_only_lift {A} (E : OpenMMException -> Prop) (r : Result A) :
  throws_only E r -> charges_only_m E (Kernel.lift r).
Proof. intros H w. split; [apply charges_only_refl | exact H]. Qed.

Lemma charges_only_modify E (f : list double -> list double) :
  charges_only_m E
    (Kernel.modify (fun k => Kernel.set_charges (f (Kernel.charges k)) k)).
Proof. intros w. split; [eexists; reflexivity | exact I]. Qed.

Lemma charges_only_bind {A B} E (m : Kernel.M A) (f : A -> Kernel.M B) :
  charges_only_m E m -> (forall a, charges_only_m E (f a)) ->
  charges_only_m E (Kernel.bind m f).
Proof.
  intros Hm Hf w. unfold Kernel.bind.
  destruct (Hm w) as [Hw Hr].
  destruct (m w) as [[a|e] w1]; cbn [fst snd] in *.
  - destruct (Hf a w1) as [Hw1 Hr1].
    split; [eapply charges_only_trans; eassumption | assumption].
  - split; assumption.
Qed.

(** A loop whose body touches the charge cache only, and throws in [E]
    only, does so as a whole. *)
Lemma charges_only_for_each E body l :
  (forall i, charges_only_m E (body i)) ->
  charges_only_m E (Kernel.for_each l body).
Proof.
  intros Hbody. induction l as [|i l IH]; cbn [Kernel.for_each].
  - apply charges_only_ret.
  - apply charges_only_bind; [apply Hbody | intros _; exact IH].
Qed.

Lemma record_charges_frame system :
  charges_only_m is_index_error (Kernel.record_charges system).
Proof.
  unfold Kernel.record_charges, Kernel.for_upto. cbv zeta.
  apply charges_only_for_each. intros j.
  apply charges_only_bind.
  - apply charges_only_lift. unfold getForce.
    destruct (sys_forces system !! j); [exact I | reflexivity].
  - intros f. destruct (dynamic_cast_NonbondedForce f) as [nb|];
      [| apply charges_only_ret].
    apply charges_only_bind; [apply (charges_only_modify _ (resize _ _))|].
    intros _. apply charges_only_for_each. intros i.
    apply charges_only_bind.
    + apply charges_only_lift. unfold getParticleParameters.
      destruct (nb_particles nb !! i); [exact I | reflexivity].
    + intros p. apply (charges_only_modify _ (fun cs => <[i := p.1.1]> cs)).
Qed.

Lemma has_nonbonded_false system :
  has_nonbonded system = false ->
  forall j f, sys_forces system !! j = Some f -> dynamic_cast_NonbondedForce f = None.
Proof.
  unfold has_nonbonded. intros H j f Hj.
  destruct (dynamic_cast_NonbondedForce f) eqn:E; [|reflexivity].
  assert (Hex : existsb (fun f => match dynamic_cast_NonbondedForce f with
                                  | Some _ => true | None => false end)
                  (sys_forces system) = true).
  { apply existsb_exists. exists f. split; [|rewrite E; reflexivity].
    apply list_elem_of_In. eapply list_elem_of_lookup_2. exact Hj. }
  congruence.
Qed.

(** Without a [NonbondedForce] the block changes nothing. *)
Lemma record_charges_none system w :
  has_nonbonded system = false ->
  Kernel.record_charges system w = (Ok tt, w).
Proof.
  intros Hnb. unfold Kernel.record_charges, Kernel.for_upto, getNumForces.
  cbv zeta. rewrite Nat2Z.id.
  assert (H : forall n a, (a + n <= length (sys_forces system))%nat ->
    Kernel.for_each (seq a n)
      (fun j => Kernel.bind (Kernel.lift (getForce system j))
         (fun f => match dynamic_cast_NonbondedForce f with
                   | Some nonbonded =>
                       Kernel.bind
                         (Kernel.modify (fun k =>
                            Kernel.set_charges
                              (resize (Z.to_nat (getNumParticles system)) 0%float
                                 (Kernel.charges k)) k))
                         (fun _ => Kernel.for_upto (getNumParticles system)
                            (fun i => Kernel.bind
                               (Kernel.lift (getParticleParameters nonbonded i))
                               (fun p => Kernel.modify (fun k =>
                                  Kernel.set_charges
                                    (<[i := p.1.1]> (Kernel.charges k)) k))))
                   | None => Kernel.ret tt
                   end)) w = (Ok tt, w)).
  { induction n as [|n IH]; intros a Ha; [reflexivity|].
    cbn [seq Kernel.for_each]. unfold Kernel.bind at 1.
    unfold Kernel.bind at 1, Kernel.lift at 1, getForce at 1.
    destruct (sys_forces system !! a) as [f|] eqn:Ef.
    2:{ apply lookup_ge_None_1 in Ef. lia. }
    rewrite (has_nonbonded_false system Hnb a f Ef). cbn [Kernel.ret].
    apply IH. lia. }
  apply H. lia.
Qed.

(** *** [initialize] as a whole *)

Lemma initialize_run system force w :
  Kernel.initialize env system force w =
  if env_apiVersion env <? 4 then
    (Throw Kernel.unsupported_api, interfaced (grex_cmds env force) w)
  else if Z.of_nat (length (PlumedForce.getMasses force)) =? 0 then
    Kernel.record_charges system
      (with_masses (sys_masses system) (before_masses env system force w))
  else if Z.of_nat (length (PlumedForce.getMasses force)) =? getNumParticles system then
    Kernel.record_charges system
      (with_masses (PlumedForce.getMasses force) (before_masses env system force w))
  else
    (Throw Kernel.masses_mismatch,
     with_masses (resize (length (sys_masses system)) 0%float
                    (Kernel.masses (Kernel.self w)))
       (before_masses env system force w)).
Proof.
  unfold Kernel.initialize. unfold Kernel.bind at 1.
  rewrite init_interface_run.
  destruct (env_apiVersion env <? 4); [reflexivity|].
  unfold Kernel.bind at 1. rewrite read_script_run.
  unfold Kernel.bind at 1. cbn [Kernel.modify].
  unfold Kernel.bind at 1. rewrite record_masses_run.
  unfold before_masses, interfaced, append_cmds, log_of, with_masses.
  cbn [Kernel.self Kernel.mpi_initialized Kernel.plumedmain received
       Kernel.set_plumedmain Kernel.set_hasInitialized Kernel.set_usesPeriodic
       Kernel.set_masses Kernel.contextImpl Kernel.hasInitialized
       Kernel.usesPeriodic Kernel.lastStepIndex Kernel.masses Kernel.charges].
  rewrite <- app_assoc.
  destruct (Z.of_nat (length (PlumedForce.getMasses force)) =? 0); [reflexivity|].
  destruct (Z.of_nat (length (PlumedForce.getMasses force)) =? getNumParticles system);
    reflexivity.
Qed.

(** What the block that records the charges cannot change. *)
Lemma record_charges_keeps system w :
  let w' := snd (Kernel.record_charges system w) in
  log_of w' = log_of w
  /\ Kernel.masses (Kernel.self w') = Kernel.masses (Kernel.self w)
  /\ Kernel.usesPeriodic (Kernel.self w') = Kernel.usesPeriodic (Kernel.self w)
  /\ Kernel.lastStepIndex (Kernel.self w') = Kernel.lastStepIndex (Kernel.self w)
  /\ throws_only is_index_error (fst (Kernel.record_charges system w)).
Proof.
  destruct (record_charges_frame system w) as [[cs ->] Hr].
  repeat split; try reflexivity. exact Hr.
Qed.

(** [initialize] never writes [lastStepIndex]. *)
Lemma initialize_lastStepIndex system force w :
  Kernel.lastStepIndex (Kernel.self (snd (Kernel.initialize env system force w))) =
  Kernel.lastStepIndex (Kernel.self w).
Proof.
  rewrite initialize_run.
  destruct (env_apiVersion env <? 4); [reflexivity|].
  destruct (Z.of_nat (length (PlumedForce.getMasses force)) =? 0);
    [| destruct (Z.of_nat (length (PlumedForce.getMasses force))
                 =? getNumParticles system); [| reflexivity]];
    match goal with |- context [Kernel.record_charges system ?w1] =>
      destruct (record_charges_keeps system w1) as (_ & _ & _ & -> & _) end;
    reflexivity.
Qed.

(** The commands [initialize] issues. *)
Lemma initialize_log system force w :
  log_of (snd (Kernel.initialize env system force w)) =
  if env_apiVersion env <? 4 then grex_cmds env force
  else grex_cmds env force ++
       setup_cmds env system force
         (integrator_stepSize (Kernel.contextImpl (Kernel.self w))) ++
       script_cmds env force.
Proof.
  rewrite initialize_run.
  destruct (env_apiVersion env <? 4); [reflexivity|].
  destruct (Z.of_nat (length (PlumedForce.getMasses force)) =? 0);
    [| destruct (Z.of_nat (length (PlumedForce.getMasses force))
                 =? getNumParticles system); [| reflexivity]];
    match goal with |- context [Kernel.record_charges system ?w1] =>
      destruct (record_charges_keeps system w1) as (-> & _) end;
    reflexivity.
Qed.

End Initialize.

(** * The claims *)

(** ** Updates of the bias history *)

Section UpdateClaims.
Variable env : Environment.

(** C1, as amended. For a kernel just constructed and initialised, and every
    sequence of [execute] calls whose step indices are monotonically
    increasing and pairwise distinct, "update" is issued exactly once for
    every step index of the sequence, except that it is not issued for a
    first index equal to 0, the value [lastStepIndex] is constructed with;
    so the calls issue as many updates as there are calls, less one when
    the first index is 0. The step index of a call is the [int] its step
    count is read into ([steps_of]): the step count itself within the range
    of [int] ([steps_of_in_range]). *)
Theorem update_once_per_new_step system force context plumedmain0 usesPeriodic0 mpi
    contexts :
  StronglySorted Z.le (steps_of contexts) ->
  NoDup (steps_of contexts) ->
  let w := snd (Kernel.initialize env system force
                  (constructed context plumedmain0 usesPeriodic0 mpi)) in
  let tr := issued w (snd (Kernel.execute_all env contexts w)) in
  (forall s, In s (steps_of contexts) ->
     updates_for s tr =
     if first_is 0 (steps_of contexts) && (s =? 0) then 0%nat else 1%nat)
  /\ count_cmd "update" tr =
     (length contexts - (if first_is 0 (steps_of contexts) then 1 else 0))%nat.
Proof.
  intros Hle Hnd w tr. subst tr.
  pose proof (increasing_distinct_lt _ Hle Hnd) as Hlt.
  assert (Hlast : Kernel.lastStepIndex (Kernel.self w) = 0)
    by (subst w; rewrite initialize_lastStepIndex; reflexivity).
  rewrite issued_execute_all. unfold updates_for.
  rewrite count_update_execute_all, Hlast.
  assert (Hlen : length contexts = length (steps_of contexts))
    by (unfold steps_of; rewrite length_map; reflexivity).
  rewrite Hlen. clear Hlen.
  split.
  - intros s Hin. rewrite updates_from_execute_all, Hlast.
    destruct (steps_of contexts) as [|x rest]; [destruct Hin|].
    inversion Hlt as [|? ? Hs Hall]; subst.
    assert (Habs : step_changes x x rest = 0%nat).
    { apply step_changes_absent. eapply Forall_impl; [exact Hall|].
      cbn; intros; lia. }
    cbn [first_is step_changes].
    destruct (x =? 0) eqn:E0; cbn [andb].
    + apply Z.eqb_eq in E0; subst x.
      destruct (0 =? s) eqn:Es.
      * apply Z.eqb_eq in Es; subst s. cbn. exact Habs.
      * rewrite Z.eqb_sym, Es. apply Z.eqb_neq in Es.
        destruct Hin as [Heq | Hin]; [congruence|].
        rewrite step_changes_increasing; auto.
    + assert (Hif : (if s =? 0 then 1%nat else 1%nat) = 1%nat)
        by (destruct (s =? 0); reflexivity).
      destruct (x =? s) eqn:Es.
      * apply Z.eqb_eq in Es; subst s. rewrite Habs. reflexivity.
      * apply Z.eqb_neq in Es. destruct Hin as [Heq | Hin]; [congruence|].
        rewrite step_changes_increasing; auto.
  - destruct (steps_of contexts) as [|x rest]; [reflexivity|].
    inversion Hlt as [|? ? Hs Hall]; subst.
    cbn [first_is changes length].
    rewrite changes_increasing by assumption.
    destruct (x =? 0); lia.
Qed.

(** C2. However many consecutive calls of [execute] carry the same step
    index [s], and whatever the kernel did before, they issue "update" at
    most once for [s] (indeed at most once at all, and at most once for the
    [int] that [s] is read into, which is [s] itself within the range of
    [int]). *)
Theorem update_at_most_once_per_step s contexts w :
  Forall (fun c => stepCount (platformData c) = s) contexts ->
  let tr := issued w (snd (Kernel.execute_all env contexts w)) in
  (updates_for s tr <= 1)%nat /\ (count_cmd "update" tr <= 1)%nat
  /\ (updates_for (to_int s) tr <= 1)%nat.
Proof.
  intros Hall tr. subst tr. rewrite issued_execute_all.
  assert (Hs : Forall (fun x => x = to_int s) (steps_of contexts)).
  { unfold steps_of. apply Forall_map.
    eapply Forall_impl; [exact Hall|]. cbn. intros c ->. reflexivity. }
  split; [|split].
  - unfold updates_for. rewrite updates_from_execute_all.
    eapply step_changes_same; exact Hs.
  - rewrite count_update_execute_all. eapply changes_same; exact Hs.
  - unfold updates_for. rewrite updates_from_execute_all.
    eapply step_changes_same; exact Hs.
Qed.

End UpdateClaims.

(** C1, as the claim states it, fails: a kernel just constructed and
    initialised, called for the steps 0, 1, 2, issues no update for step 0
    (two updates for three distinct indices). *)
Lemma update_skipped_for_first_step_zero :
  let contexts := [ex_context 0; ex_context 1; ex_context 2] in
  let r := Kernel.initialize (plumed_env 8) ex_system ex_force ex_world in
  let tr := issued (snd r) (snd (Kernel.execute_all (plumed_env 8) contexts (snd r))) in
  fst r = Ok tt
  /\ steps_of contexts = [0; 1; 2]
  /\ updates_for 0 tr = 0%nat
  /\ updates_for 1 tr = 1%nat
  /\ updates_for 2 tr = 1%nat
  /\ count_cmd "update" tr = 2%nat.
Proof. vm_compute. repeat split. Qed.

Lemma update_once_per_new_step_witness :
  StronglySorted Z.le (steps_of [ex_context 3; ex_context 4; ex_context 7])
  /\ NoDup (steps_of [ex_context 3; ex_context 4; ex_context 7])
  /\ (let w := snd (Kernel.initialize (plumed_env 8) ex_system ex_force ex_world) in
      let tr := issued w (snd (Kernel.execute_all (plumed_env 8)
                                 [ex_context 3; ex_context 4; ex_context 7] w)) in
      (forall s, In s (steps_of [ex_context 3; ex_context 4; ex_context 7]) ->
         updates_for s tr =
         if first_is 0 (steps_of [ex_context 3; ex_context 4; ex_context 7]) && (s =? 0)
         then 0%nat else 1%nat)
      /\ count_cmd "update" tr =
         (length [ex_context 3; ex_context 4; ex_context 7]
          - (if first_is 0 (steps_of [ex_context 3; ex_context 4; ex_context 7])
             then 1 else 0))%nat).
Proof.
  assert (Hs : StronglySorted Z.le (steps_of [ex_context 3; ex_context 4; ex_context 7])).
  { change (steps_of [ex_context 3; ex_context 4; ex_context 7]) with [3; 4; 7].
    repeat constructor; lia. }
  assert (Hd : NoDup (steps_of [ex_context 3; ex_context 4; ex_context 7])).
  { change (steps_of [ex_context 3; ex_context 4; ex_context 7]) with [3; 4; 7].
    repeat (apply NoDup_cons_2;
                   [rewrite list_elem_of_In; cbn; intros H; decompose [or] H; lia|]).
    apply NoDup_nil_2. }
  split; [exact Hs | split; [exact Hd |]].
  exact (update_once_per_new_step (plumed_env 8) ex_system ex_force (ex_context 0)
           (mkPlumed []) false false [ex_context 3; ex_context 4; ex_context 7] Hs Hd).
Defined.

Lemma update_at_most_once_per_step_witness :
  Forall (fun c => stepCount (platformData c) = 5)
    [ex_context 5; ex_context 5; ex_context 5]
  /\ (let tr := issued ex_world
                  (snd (Kernel.execute_all (plumed_env 8)
                          [ex_context 5; ex_context 5; ex_context 5] ex_world)) in
      (updates_for 5 tr <= 1)%nat /\ (count_cmd "update" tr <= 1)%nat
      /\ (updates_for (to_int 5) tr <= 1)%nat).
Proof.
  assert (H : Forall (fun c => stepCount (platformData c) = 5)
                [ex_context 5; ex_context 5; ex_context 5]).
  { repeat constructor. }
  split; [exact H|].
  exact (update_at_most_once_per_step (plumed_env 8) 5
           [ex_context 5; ex_context 5; ex_context 5] ex_world H).
Defined.

(** ** What [initialize] sends to the interpreter *)

Section InitializeLog.
Variable env : Environment.

Lemma ingestion_app l1 l2 : ingestion (l1 ++ l2) = ingestion l1 ++ ingestion l2.
Proof.
  induction l1 as [|c l1 IH]; cbn; [reflexivity|].
  destruct (is_ingestion c); cbn; rewrite IH; reflexivity.
Qed.

Lemma ingestion_grex force : ingestion (grex_cmds env force) = [].
Proof.
  unfold grex_cmds.
  destruct (env_rank env (PlumedForce.getIntracom force) =? 0); reflexivity.
Qed.

Lemma ingestion_setup system force dt : ingestion (setup_cmds env system force dt) = [].
Proof.
  unfold setup_cmds.
  destruct (0 <=? PlumedForce.getTemperature force * BOLTZ env)%float; reflexivity.
Qed.

Lemma ingestion_lines lines :
  ingestion (map (fun line => mkCmd "readInputLine" (PStr line)) lines) =
  map (fun line => mkCmd "readInputLine" (PStr line)) lines.
Proof. induction lines as [|l lines IH]; cbn; [reflexivity | rewrite IH; reflexivity]. Qed.

Lemma ingestion_script force : ingestion (script_cmds env force) = script_cmds env force.
Proof.
  unfold script_cmds. destruct (7 <? env_apiVersion env);
    [reflexivity | apply ingestion_lines].
Qed.

(** The ingestion commands [initialize] issues: none when the version is
    refused, else those of [script_cmds]. *)
Lemma initialize_ingestion system force w :
  ingestion (log_of (snd (Kernel.initialize env system force w))) =
  if env_apiVersion env <? 4 then [] else script_cmds env force.
Proof.
  rewrite initialize_log. destruct (env_apiVersion env <? 4).
  - apply ingestion_grex.
  - rewrite !ingestion_app, ingestion_grex, ingestion_setup, ingestion_script.
    reflexivity.
Qed.

Lemma count_lines key lines :
  String.eqb "readInputLine" key = false ->
  count_cmd key (map (fun line => mkCmd "readInputLine" (PStr line)) lines) = 0%nat.
Proof.
  intros H. induction lines as [|l lines IH]; [reflexivity|].
  cbn [map count_cmd]. unfold key_is at 1; cbn [cmd_key]. rewrite H. exact IH.
Qed.

Lemma count_setKbT_grex force : count_cmd "setKbT" (grex_cmds env force) = 0%nat.
Proof.
  unfold grex_cmds.
  destruct (env_rank env (PlumedForce.getIntracom force) =? 0); reflexivity.
Qed.

Lemma count_setKbT_script force : count_cmd "setKbT" (script_cmds env force) = 0%nat.
Proof.
  unfold script_cmds. destruct (7 <? env_apiVersion env);
    [reflexivity | apply count_lines; reflexivity].
Qed.

Lemma count_setKbT_setup system force dt :
  count_cmd "setKbT" (setup_cmds env system force dt) =
  if (0 <=? PlumedForce.getTemperature force * BOLTZ env)%float then 1%nat else 0%nat.
Proof.
  unfold setup_cmds.
  destruct (0 <=? PlumedForce.getTemperature force * BOLTZ env)%float; reflexivity.
Qed.

(** "setKbT" is pushed when the version is accepted and [kT >= 0.0] holds
    for the product [kT] of the temperature and [BOLTZ], and only then. *)
Lemma initialize_setKbT system force w :
  count_cmd "setKbT" (log_of (snd (Kernel.initialize env system force w))) =
  if env_apiVersion env <? 4 then 0%nat
  else if (0 <=? PlumedForce.getTemperature force * BOLTZ env)%float then 1%nat
  else 0%nat.
Proof.
  rewrite initialize_log. destruct (env_apiVersion env <? 4).
  - apply count_setKbT_grex.
  - rewrite !count_cmd_app, count_setKbT_grex, count_setKbT_setup,
      count_setKbT_script.
    destruct (0 <=? PlumedForce.getTemperature force * BOLTZ env)%float; reflexivity.
Qed.

Lemma c_str_no_nul s : no_nul s = true -> c_str s = s.
Proof.
  induction s as [|c s IH]; cbn; [reflexivity|].
  destruct (Ascii.eqb c "000"); cbn; [discriminate|].
  intros H. rewrite IH by exact H. reflexivity.
Qed.

End InitializeLog.

(** ** Failures and results of [initialize] *)

Section InitializeClaims.
Variable env : Environment.

(** C6. [initialize] throws the unsupported-API-version error if and only if
    the API version the interpreter reports is below 4: from version 4 on it
    does not fail on the version check (whatever else it throws is another
    error). *)
Theorem unsupported_api_iff system force w :
  fst (Kernel.initialize env system force w) = Throw Kernel.unsupported_api
  <-> env_apiVersion env < 4.
Proof.
  rewrite initialize_run.
  destruct (env_apiVersion env <? 4) eqn:E.
  - apply Z.ltb_lt in E. split; [intros _; exact E | reflexivity].
  - apply Z.ltb_ge in E. split; [|lia]. intros H. exfalso.
    destruct (Z.of_nat (length (PlumedForce.getMasses force)) =? 0);
      [| destruct (Z.of_nat (length (PlumedForce.getMasses force))
                   =? getNumParticles system); [| discriminate H]];
      match type of H with context [Kernel.record_charges system ?w1] =>
        destruct (record_charges_keeps system w1) as (_ & _ & _ & _ & Hr) end;
      rewrite H in Hr; discriminate Hr.
Qed.

(** C3, as amended. When the number of mass overrides is neither 0 nor the
    number of particles, [initialize] fails with a descriptive error. With
    an accepted API version (4 or more) the error is the one about the number
    of PLUMED masses and it comes after the script has been fed to the
    interpreter: the ingestion commands have been issued. With a version
    below 4 the error is the one of the version check, before any
    ingestion. *)
Theorem masses_mismatch_fails system force w :
  length (PlumedForce.getMasses force) <> 0%nat ->
  length (PlumedForce.getMasses force) <> length (sys_masses system) ->
  let r := Kernel.initialize env system force w in
  (4 <= env_apiVersion env ->
     fst r = Throw Kernel.masses_mismatch
     /\ ingestion (log_of (snd r)) = script_cmds env force)
  /\ (env_apiVersion env < 4 ->
        fst r = Throw Kernel.unsupported_api
        /\ ingestion (log_of (snd r)) = []).
Proof.
  intros H0 HN r. subst r. rewrite initialize_ingestion.
  split; intros Hv.
  - rewrite initialize_run.
    destruct (env_apiVersion env <? 4) eqn:E; [apply Z.ltb_lt in E; lia|].
    destruct (Z.of_nat (length (PlumedForce.getMasses force)) =? 0) eqn:E0;
      [apply Z.eqb_eq in E0; lia|].
    unfold getNumParticles.
    destruct (Z.of_nat (length (PlumedForce.getMasses force))
              =? Z.of_nat (length (sys_masses system))) eqn:EN;
      [apply Z.eqb_eq in EN; lia|].
    split; reflexivity.
  - split; [apply unsupported_api_iff; exact Hv|].
    apply Z.ltb_lt in Hv. rewrite Hv. reflexivity.
Qed.

(** C4. Once the version check has passed, [initialize] resolves the
    effective masses: with no overrides they are the masses of the system,
    element for element; with as many overrides as particles they are the
    overrides; in both cases the error about the number of PLUMED masses is
    not raised; otherwise [initialize] fails with that error. *)
Theorem effective_masses system force w :
  4 <= env_apiVersion env ->
  let r := Kernel.initialize env system force w in
  (PlumedForce.getMasses force = [] ->
     Kernel.masses (Kernel.self (snd r)) = sys_masses system
     /\ fst r <> Throw Kernel.masses_mismatch)
  /\ (length (PlumedForce.getMasses force) = length (sys_masses system) ->
        Kernel.masses (Kernel.self (snd r)) = PlumedForce.getMasses force
        /\ fst r <> Throw Kernel.masses_mismatch)
  /\ (PlumedForce.getMasses force <> [] ->
      length (PlumedForce.getMasses force) <> length (sys_masses system) ->
        fst r = Throw Kernel.masses_mismatch).
Proof.
  intros Hv r. subst r. rewrite initialize_run.
  destruct (env_apiVersion env <? 4) eqn:E; [apply Z.ltb_lt in E; lia|].
  unfold getNumParticles.
  destruct (Z.of_nat (length (PlumedForce.getMasses force)) =? 0) eqn:E0;
    [| destruct (Z.of_nat (length (PlumedForce.getMasses force))
                 =? Z.of_nat (length (sys_masses system))) eqn:EN].
  - apply Z.eqb_eq in E0.
    assert (Hnil : PlumedForce.getMasses force = [])
      by (destruct (PlumedForce.getMasses force); [reflexivity | cbn in E0; lia]).
    match goal with |- context [Kernel.record_charges system ?w1] =>
      destruct (record_charges_keeps system w1) as (_ & Hm & _ & _ & Hr) end.
    rewrite Hm. cbn [with_masses Kernel.self Kernel.set_masses Kernel.masses].
    assert (Hne : fst (Kernel.record_charges system
                         (with_masses (sys_masses system)
                            (before_masses env system force w)))
                  <> Throw Kernel.masses_mismatch)
      by (intros H; rewrite H in Hr; discriminate Hr).
    split; [intros _; split; [reflexivity | exact Hne]|].
    split; [|congruence].
    intros Hlen. split; [|exact Hne]. rewrite Hnil in Hlen |- *.
    destruct (sys_masses system); [reflexivity | discriminate Hlen].
  - apply Z.eqb_neq in E0. apply Z.eqb_eq in EN.
    match goal with |- context [Kernel.record_charges system ?w1] =>
      destruct (record_charges_keeps system w1) as (_ & Hm & _ & _ & Hr) end.
    rewrite Hm. cbn [with_masses Kernel.self Kernel.set_masses Kernel.masses].
    split; [intros Hnil; rewrite Hnil in E0; cbn in E0; lia|].
    split; [|lia]. intros _. split; [reflexivity|].
    intros H; rewrite H in Hr; discriminate Hr.
  - apply Z.eqb_neq in E0. apply Z.eqb_neq in EN. cbn [fst snd].
    split; [intros Hnil; rewrite Hnil in E0; cbn in E0; lia|].
    split; [lia | reflexivity].
Qed.

(** C5. Once the version check has passed, the script is fed to the
    interpreter as one multi-line block, a single "readInputLines" command
    carrying the script (as the C string [c_str()] gives, the whole script
    when it holds no NUL), if and only if the API version is greater than 7;
    otherwise it is split at newlines and carriage returns and every line
    (the lines [strtok] yields are the non-empty ones, so that a carriage
    return followed by a newline ends one line) is submitted with a
    "readInputLine" command of its own, in order. *)
Theorem script_submission system force w :
  4 <= env_apiVersion env ->
  let tr := ingestion (log_of (snd (Kernel.initialize env system force w))) in
  let script := c_str (PlumedForce.getScript force) in
  (tr = [mkCmd "readInputLines" (PStr script)] <-> 7 < env_apiVersion env)
  /\ (env_apiVersion env <= 7 ->
        tr = map (fun line => mkCmd "readInputLine" (PStr line)) (script_lines script))
  /\ (no_nul (PlumedForce.getScript force) = true ->
        script = PlumedForce.getScript force).
Proof.
  intros Hv tr script. subst tr script. rewrite initialize_ingestion.
  destruct (env_apiVersion env <? 4) eqn:E; [apply Z.ltb_lt in E; lia|].
  unfold script_cmds.
  destruct (7 <? env_apiVersion env) eqn:E7.
  - apply Z.ltb_lt in E7.
    split; [split; [intros _; exact E7 | reflexivity]|].
    split; [lia | apply c_str_no_nul].
  - apply Z.ltb_ge in E7.
    split; [| split; [reflexivity | apply c_str_no_nul]].
    split; [|lia]. intros H. exfalso.
    destruct (script_lines (c_str (PlumedForce.getScript force))) as [|l ls];
      cbn in H; discriminate H.
Qed.

End InitializeClaims.

(** ** Charges and box vectors in [execute] *)

Section ExecuteClaims.
Variable env : Environment.

Lemma count_setCharges_execute_cmds k c :
  count_cmd "setCharges" (execute_cmds k c) =
  if 0 <? Z.of_nat (length (Kernel.charges k)) then 1%nat else 0%nat.
Proof.
  unfold execute_cmds.
  destruct (0 <? Z.of_nat (length (Kernel.charges k)));
    destruct (Kernel.usesPeriodic k);
    destruct (to_int (stepCount (platformData c)) =? Kernel.lastStepIndex k);
    reflexivity.
Qed.

Lemma count_setBox_execute_cmds k c :
  count_cmd "setBox" (execute_cmds k c) =
  if Kernel.usesPeriodic k then 1%nat else 0%nat.
Proof.
  unfold execute_cmds.
  destruct (0 <? Z.of_nat (length (Kernel.charges k)));
    destruct (Kernel.usesPeriodic k);
    destruct (to_int (stepCount (platformData c)) =? Kernel.lastStepIndex k);
    reflexivity.
Qed.

Lemma count_setCharges_execute_all contexts : forall k,
  Kernel.charges k = [] ->
  count_cmd "setCharges" (execute_all_cmds k contexts) = 0%nat.
Proof.
  induction contexts as [|c rest IH]; intros k Hk; [reflexivity|].
  cbn [execute_all_cmds].
  rewrite count_cmd_app, count_setCharges_execute_cmds, Hk, IH by exact Hk.
  reflexivity.
Qed.

(** Without a [NonbondedForce], [initialize] leaves the charge cache as it
    found it. *)
Lemma initialize_charges_none system force w :
  has_nonbonded system = false ->
  Kernel.charges (Kernel.self (snd (Kernel.initialize env system force w))) =
  Kernel.charges (Kernel.self w).
Proof.
  intros Hnb. rewrite initialize_run.
  destruct (env_apiVersion env <? 4); [reflexivity|].
  destruct (Z.of_nat (length (PlumedForce.getMasses force)) =? 0);
    [| destruct (Z.of_nat (length (PlumedForce.getMasses force))
                 =? getNumParticles system); [| reflexivity]];
    rewrite record_charges_none by exact Hnb; reflexivity.
Qed.

(** Once the version check has passed, [initialize] records whether the
    system is periodic. *)
Lemma initialize_usesPeriodic system force w :
  4 <= env_apiVersion env ->
  Kernel.usesPeriodic (Kernel.self (snd (Kernel.initialize env system force w))) =
  System_usesPeriodicBoundaryConditions system.
Proof.
  intros Hv. rewrite initialize_run.
  destruct (env_apiVersion env <? 4) eqn:E; [apply Z.ltb_lt in E; lia|].
  destruct (Z.of_nat (length (PlumedForce.getMasses force)) =? 0);
    [| destruct (Z.of_nat (length (PlumedForce.getMasses force))
                 =? getNumParticles system); [| reflexivity]];
    match goal with |- context [Kernel.record_charges system ?w1] =>
      destruct (record_charges_keeps system w1) as (_ & _ & -> & _) end;
    reflexivity.
Qed.

(** C7. For a system without a nonbonded force, the charge cache of a kernel
    just constructed is empty after [initialize], and no call of [execute]
    issues a "setCharges" command. *)
Theorem no_charges_without_nonbonded system force context plumedmain0
    usesPeriodic0 mpi :
  has_nonbonded system = false ->
  let w := snd (Kernel.initialize env system force
                  (constructed context plumedmain0 usesPeriodic0 mpi)) in
  Kernel.charges (Kernel.self w) = []
  /\ forall contexts,
       count_cmd "setCharges" (issued w (snd (Kernel.execute_all env contexts w)))
       = 0%nat.
Proof.
  intros Hnb w.
  assert (Hc : Kernel.charges (Kernel.self w) = [])
    by (subst w; rewrite initialize_charges_none by exact Hnb; reflexivity).
  split; [exact Hc|]. intros contexts.
  rewrite issued_execute_all. apply count_setCharges_execute_all. exact Hc.
Qed.

(** C8. After an [initialize] that passed the version check, every call of
    [execute], whatever calls came before, issues exactly one "setBox"
    command when the system uses periodic boundary conditions, and none when
    it does not. *)
Theorem setBox_iff_periodic system force w0 contexts context
    includeForces includeEnergy :
  4 <= env_apiVersion env ->
  let w := snd (Kernel.initialize env system force w0) in
  let w1 := snd (Kernel.execute_all env contexts w) in
  count_cmd "setBox"
    (issued w1 (snd (Kernel.execute env context includeForces includeEnergy w1)))
  = if System_usesPeriodicBoundaryConditions system then 1%nat else 0%nat.
Proof.
  intros Hv w w1. rewrite issued_execute, count_setBox_execute_cmds.
  assert (Hp : Kernel.usesPeriodic (Kernel.self w1) = Kernel.usesPeriodic (Kernel.self w)).
  { subst w1. destruct (execute_all_run env contexts w) as [es ->]. reflexivity. }
  rewrite Hp. subst w. rewrite initialize_usesPeriodic by exact Hv. reflexivity.
Qed.

End ExecuteClaims.

(** C10. [PlumedForce::usesPeriodicBoundaryConditions()] returns [false] for
    every descriptor, whatever its script and configuration. *)
Theorem plumed_force_not_periodic (f : PlumedForce.t) :
  PlumedForce.usesPeriodicBoundaryConditions f = false.
Proof. destruct f; reflexivity. Qed.

(** ** The claims at concrete inputs *)

(** The example of the spec: two particles of masses 1 and 2. No overrides
    give the masses [1; 2]; the overrides [5; 6] are taken as they are; the
    single override [5] makes [initialize] fail. *)
Example effective_masses_example :
  let run force := Kernel.initialize (plumed_env 8) ex_system force ex_world in
  Kernel.masses (Kernel.self (snd (run ex_force))) = [1%float; 2%float]
  /\ fst (run ex_force) = Ok tt
  /\ Kernel.masses (Kernel.self
       (snd (run (PlumedForce.setMasses [5%float; 6%float] ex_force))))
     = [5%float; 6%float]
  /\ fst (run (PlumedForce.setMasses [5%float] ex_force))
     = Throw Kernel.masses_mismatch.
Proof. vm_compute. repeat split. Qed.

(** The lines of the example script: the empty line is no token of
    [strtok]. *)
Example script_lines_example :
  script_lines ex_script = ["d: DISTANCE ATOMS=1,2"; "PRINT ARG=d"].
Proof. reflexivity. Qed.

(** C3, as the claim states it, fails: with one override for two particles
    [initialize] throws the error about the number of PLUMED masses only
    after the script has been submitted, as one block for API version 8 and
    line by line for API version 5. *)
Lemma masses_mismatch_after_ingestion :
  let force := PlumedForce.setMasses [5%float] ex_force in
  let r8 := Kernel.initialize (plumed_env 8) ex_system force ex_world in
  let r5 := Kernel.initialize (plumed_env 5) ex_system force ex_world in
  length (PlumedForce.getMasses force) = 1%nat
  /\ getNumParticles ex_system = 2
  /\ fst r8 = Throw Kernel.masses_mismatch
  /\ ingestion (log_of (snd r8)) = [mkCmd "readInputLines" (PStr ex_script)]
  /\ fst r5 = Throw Kernel.masses_mismatch
  /\ ingestion (log_of (snd r5)) =
     [mkCmd "readInputLine" (PStr "d: DISTANCE ATOMS=1,2");
      mkCmd "readInputLine" (PStr "PRINT ARG=d")].
Proof. vm_compute. repeat split. Qed.

Lemma masses_mismatch_fails_witness :
  length (PlumedForce.getMasses (PlumedForce.setMasses [5%float] ex_force)) <> 0%nat
  /\ length (PlumedForce.getMasses (PlumedForce.setMasses [5%float] ex_force))
     <> length (sys_masses ex_system)
  /\ (let r := Kernel.initialize (plumed_env 8) ex_system
                 (PlumedForce.setMasses [5%float] ex_force) ex_world in
      (4 <= env_apiVersion (plumed_env 8) ->
         fst r = Throw Kernel.masses_mismatch
         /\ ingestion (log_of (snd r)) =
            script_cmds (plumed_env 8) (PlumedForce.setMasses [5%float] ex_force))
      /\ (env_apiVersion (plumed_env 8) < 4 ->
            fst r = Throw Kernel.unsupported_api
            /\ ingestion (log_of (snd r)) = [])).
Proof.
  assert (H0 : length (PlumedForce.getMasses (PlumedForce.setMasses [5%float] ex_force))
               <> 0%nat) by (cbn; lia).
  assert (HN : length (PlumedForce.getMasses (PlumedForce.setMasses [5%float] ex_force))
               <> length (sys_masses ex_system)) by (cbn; lia).
  split; [exact H0 | split; [exact HN |]].
  exact (masses_mismatch_fails (plumed_env 8) ex_system
           (PlumedForce.setMasses [5%float] ex_force) ex_world H0 HN).
Defined.

Lemma effective_masses_witness :
  4 <= env_apiVersion (plumed_env 8)
  /\ (let r := Kernel.initialize (plumed_env 8) ex_system ex_force ex_world in
      (PlumedForce.getMasses ex_force = [] ->
         Kernel.masses (Kernel.self (snd r)) = sys_masses ex_system
         /\ fst r <> Throw Kernel.masses_mismatch)
      /\ (length (PlumedForce.getMasses ex_force) = length (sys_masses ex_system) ->
            Kernel.masses (Kernel.self (snd r)) = PlumedForce.getMasses ex_force
            /\ fst r <> Throw Kernel.masses_mismatch)
      /\ (PlumedForce.getMasses ex_force <> [] ->
          length (PlumedForce.getMasses ex_force) <> length (sys_masses ex_system) ->
            fst r = Throw Kernel.masses_mismatch)).
Proof.
  assert (Hv : 4 <= env_apiVersion (plumed_env 8)) by (cbn; lia).
  split; [exact Hv|].
  exact (effective_masses (plumed_env 8) ex_system ex_force ex_world Hv).
Defined.

Lemma script_submission_witness :
  4 <= env_apiVersion (plumed_env 5)
  /\ (let tr := ingestion (log_of (snd (Kernel.initialize (plumed_env 5) ex_system
                                          ex_force ex_world))) in
      let script := c_str (PlumedForce.getScript ex_force) in
      (tr = [mkCmd "readInputLines" (PStr script)] <-> 7 < env_apiVersion (plumed_env 5))
      /\ (env_apiVersion (plumed_env 5) <= 7 ->
            tr = map (fun line => mkCmd "readInputLine" (PStr line)) (script_lines script))
      /\ (no_nul (PlumedForce.getScript ex_force) = true ->
            script = PlumedForce.getScript ex_force)).
Proof.
  assert (Hv : 4 <= env_apiVersion (plumed_env 5)) by (cbn; lia).
  split; [exact Hv|].
  exact (script_submission (plumed_env 5) ex_system ex_force ex_world Hv).
Defined.

Lemma no_charges_without_nonbonded_witness :
  has_nonbonded ex_system = false
  /\ (let w := snd (Kernel.initialize (plumed_env 8) ex_system ex_force
                      (constructed (ex_context 0) (mkPlumed []) false false)) in
      Kernel.charges (Kernel.self w) = []
      /\ forall contexts,
           count_cmd "setCharges"
             (issued w (snd (Kernel.execute_all (plumed_env 8) contexts w)))
           = 0%nat).
Proof.
  assert (Hnb : has_nonbonded ex_system = false) by reflexivity.
  split; [exact Hnb|].
  exact (no_charges_without_nonbonded (plumed_env 8) ex_system ex_force
           (ex_context 0) (mkPlumed []) false false Hnb).
Defined.

Lemma setBox_iff_periodic_witness :
  4 <= env_apiVersion (plumed_env 8)
  /\ (let w := snd (Kernel.initialize (plumed_env 8) ex_periodic_system ex_force
                      ex_world) in
      let w1 := snd (Kernel.execute_all (plumed_env 8) [ex_context 0] w) in
      count_cmd "setBox"
        (issued w1 (snd (Kernel.execute (plumed_env 8) (ex_context 1) true true w1)))
      = if System_usesPeriodicBoundaryConditions ex_periodic_system
        then 1%nat else 0%nat).
Proof.
  assert (Hv : 4 <= env_apiVersion (plumed_env 8)) by (cbn; lia).
  split; [exact Hv|].
  exact (setBox_iff_periodic (plumed_env 8) ex_periodic_system ex_force ex_world
           [ex_context 0] (ex_context 1) true true Hv).
Defined.

(** With a nonbonded force the charges are cached and pushed; with a periodic
    system the box is pushed. *)
Example periodic_nonbonded_example :
  let w := snd (Kernel.initialize (plumed_env 8) ex_periodic_system ex_force ex_world) in
  let tr := issued w (snd (Kernel.execute (plumed_env 8) (ex_context 1) true true w)) in
  Kernel.charges (Kernel.self w) = [0.5%float; (-0.5)%float]
  /\ count_cmd "setCharges" tr = 1%nat
  /\ count_cmd "setBox" tr = 1%nat
  /\ count_cmd "update" tr = 1%nat.
Proof. vm_compute. repeat split. Qed.

(** ** The thermal energy *)

(** Once the version check has passed, "setKbT" is pushed (once) exactly when
    [kT >= 0.0] holds for the product [kT] of the temperature and [BOLTZ],
    computed in double precision; its payload is that product. *)
Lemma setKbT_iff_kT_nonnegative env system force w :
  4 <= env_apiVersion env ->
  let kT := (PlumedForce.getTemperature force * BOLTZ env)%float in
  let log := log_of (snd (Kernel.initialize env system force w)) in
  (count_cmd "setKbT" log = 1%nat <-> (0 <=? kT)%float = true)
  /\ (count_cmd "setKbT" log = 0%nat <-> (0 <=? kT)%float = false).
Proof.
  intros Hv kT log. subst kT log. rewrite initialize_setKbT.
  destruct (env_apiVersion env <? 4) eqn:E; [apply Z.ltb_lt in E; lia|].
  destruct (0 <=? PlumedForce.getTemperature force * BOLTZ env)%float;
    split; split; intros; (reflexivity || discriminate).
Qed.

(** With the default temperature, -1, nothing is pushed; with 300 K the
    product is. *)
Example setKbT_example :
  let run force := log_of (snd (Kernel.initialize (plumed_env 8) ex_system force ex_world)) in
  PlumedForce.create ex_script 91 92 = ex_force
  /\ PlumedForce.getTemperature ex_force = (-1)%float
  /\ payloads_of "setKbT" (run ex_force) = []
  /\ payloads_of "setKbT" (run (PlumedForce.setTemperature 300%float ex_force))
     = [PDouble (300 * openmm_BOLTZ)%float].
Proof. vm_compute. repeat split. Qed.

(** C9 fails on the code at the temperature -2^-1074, the negative double
    closest to zero: the product with [BOLTZ] underflows to -0.0, for which
    [kT >= 0.0] holds, so "setKbT" is pushed (with -0.0) although the
    temperature is negative. *)
Theorem setKbT_pushed_for_negative_temperature :
  let force := PlumedForce.setTemperature (-0x1p-1074)%float ex_force in
  let r := Kernel.initialize (plumed_env 8) ex_system force ex_world in
  (PlumedForce.getTemperature force <? 0)%float = true
  /\ fst r = Ok tt
  /\ count_cmd "setKbT" (log_of (snd r)) = 1%nat
  /\ payloads_of "setKbT" (log_of (snd r)) = [PDouble neg_zero].
Proof. vm_compute. repeat split. Qed.

(** ** A temperature that is not negative is always pushed *)

Section NonNegativeTemperature.

Lemma shr_1_nonneg mrs : 0 <= shr_m mrs -> 0 <= shr_m (shr_1 mrs).
Proof.
  destruct mrs as [m r s]. destruct m as [|p|p]; cbn; intros H;
    [lia | destruct p; cbn; lia | lia].
Qed.

Lemma iter_shr_1_nonneg : forall p mrs,
  0 <= shr_m mrs -> 0 <= shr_m (SpecFloat.iter_pos shr_1 p mrs).
Proof.
  induction p as [p IH|p IH|]; intros mrs H; cbn.
  - apply IH, IH, shr_1_nonneg, H.
  - apply IH, IH, H.
  - apply shr_1_nonneg, H.
Qed.

Lemma shr_fexp_nonneg m e l :
  0 <= m -> 0 <= shr_m (fst (shr_fexp prec emax m e l)).
Proof.
  intros H. unfold shr_fexp, shr.
  assert (H0 : 0 <= shr_m (shr_record_of_loc m l))
    by (destruct l as [|[]]; exact H).
  destruct (fexp prec emax (Zdigits2 m + e) - e); cbn [fst];
    [exact H0 | apply iter_shr_1_nonneg; exact H0 | exact H0].
Qed.

Lemma round_nearest_even_nonneg mx lx : 0 <= mx -> 0 <= round_nearest_even mx lx.
Proof.
  intros H. unfold round_nearest_even.
  destruct lx as [|[]]; try destruct (Z.even mx); lia.
Qed.

(** Rounding a non-negative mantissa with a positive sign gives a double
    that compares [>= 0]. *)
Lemma binary_round_aux_nonneg m e :
  0 <= m ->
  SFleb (S754_zero false) (binary_round_aux prec emax false m e loc_Exact) = true.
Proof.
  intros H. unfold binary_round_aux.
  pose proof (shr_fexp_nonneg m e loc_Exact H) as H1.
  destruct (shr_fexp prec emax m e loc_Exact) as [mrs' e']. cbn [fst] in H1.
  pose proof (shr_fexp_nonneg _ e' loc_Exact
                (round_nearest_even_nonneg _ (loc_of_shr_record mrs') H1)) as H2.
  destruct (shr_fexp prec emax
              (round_nearest_even (shr_m mrs') (loc_of_shr_record mrs')) e' loc_Exact)
    as [mrs'' e''].
  cbn [fst] in H2. destruct (shr_m mrs'') as [|p|p]; [reflexivity | | lia].
  destruct (e'' <=? emax - prec); reflexivity.
Qed.

(** For a positive finite [B], [T >= 0.0] gives [T * B >= 0.0]. *)
Lemma mul_nonneg (T B : float) :
  (0 <=? T)%float = true ->
  (0 <? B)%float = true -> (B <? infinity)%float = true ->
  (0 <=? T * B)%float = true.
Proof.
  rewrite !leb_spec, !ltb_spec, mul_spec.
  change (Prim2SF 0) with (S754_zero false).
  change (Prim2SF infinity) with (S754_infinity false).
  destruct (Prim2SF T) as [s|[]| |[] m e]; try discriminate;
    destruct (Prim2SF B) as [sb|[]| |[] mb eb]; try discriminate;
    intros _ _ _; try reflexivity.
  cbn [SF64mul SFmul xorb]. apply binary_round_aux_nonneg. lia.
Qed.

(** Once the version check has passed, a temperature that is not negative
    ([T >= 0.0]) has its thermal energy pushed, whatever positive finite
    value [BOLTZ] has. *)
Lemma setKbT_for_nonnegative_temperature env system force w :
  4 <= env_apiVersion env ->
  (0 <? BOLTZ env)%float = true -> (BOLTZ env <? infinity)%float = true ->
  (0 <=? PlumedForce.getTemperature force)%float = true ->
  count_cmd "setKbT" (log_of (snd (Kernel.initialize env system force w))) = 1%nat.
Proof.
  intros Hv Hb Hf HT.
  apply (setKbT_iff_kT_nonnegative env system force w Hv).
  apply mul_nonneg; assumption.
Qed.

End NonNegativeTemperature.

(** With OpenMM's [BOLTZ] the product underflows to -0.0 for the sixty
    negative doubles closest to zero: -60 * 2^-1074 is still pushed,
    -61 * 2^-1074 is not. *)
Example setKbT_underflow_range :
  let run T := payloads_of "setKbT"
                 (log_of (snd (Kernel.initialize (plumed_env 8) ex_system
                                 (PlumedForce.setTemperature T ex_force) ex_world))) in
  run (-0x3cp-1074)%float = [PDouble neg_zero]
  /\ run (-0x3dp-1074)%float = []
  /\ run neg_zero = [PDouble neg_zero]
  /\ run nan = [].
Proof. vm_compute. repeat split. Qed.

(** * Further properties of the kernel *)

(** ** Lifetime: [initialize], [execute] and the destructor *)

Section Lifetime.
Variable env : Environment.

(** What [initialize] leaves in the members other than the caches, whatever
    its outcome. *)
Lemma initialize_members system force w :
  let w' := snd (Kernel.initialize env system force w) in
  Kernel.hasInitialized (Kernel.self w') = true
  /\ Kernel.mpi_initialized w' = true
  /\ Kernel.contextImpl (Kernel.self w') = Kernel.contextImpl (Kernel.self w).
Proof.
  cbv zeta. rewrite initialize_run.
  destruct (env_apiVersion env <? 4); [repeat split|].
  destruct (Z.of_nat (length (PlumedForce.getMasses force)) =? 0);
    [| destruct (Z.of_nat (length (PlumedForce.getMasses force))
                 =? getNumParticles system); [| repeat split]];
    match goal with |- context [Kernel.record_charges system ?w1] =>
      destruct (record_charges_frame system w1) as [[cs ->] _] end;
    repeat split.
Qed.

Lemma execute_all_members contexts w :
  let w' := snd (Kernel.execute_all env contexts w) in
  Kernel.hasInitialized (Kernel.self w') = Kernel.hasInitialized (Kernel.self w)
  /\ Kernel.mpi_initialized w' = Kernel.mpi_initialized w
  /\ Kernel.masses (Kernel.self w') = Kernel.masses (Kernel.self w)
  /\ Kernel.charges (Kernel.self w') = Kernel.charges (Kernel.self w)
  /\ Kernel.usesPeriodic (Kernel.self w') = Kernel.usesPeriodic (Kernel.self w)
  /\ Kernel.contextImpl (Kernel.self w') = Kernel.contextImpl (Kernel.self w).
Proof.
  cbv zeta. destruct (execute_all_run env contexts w) as [es ->]. repeat split.
Qed.


(** X2. After [initialize], whatever its outcome, the MPI runtime of the
    process is initialised, also when it was not before; no call of
    [execute] changes that. *)
Theorem mpi_initialized_after_initialize system force w contexts :
  let w1 := snd (Kernel.initialize env system force w) in
  Kernel.mpi_initialized w1 = true
  /\ Kernel.mpi_initialized (snd (Kernel.execute_all env contexts w1)) = true.
Proof.
  intros w1. destruct (initialize_members system force w) as (_ & Hm & _).
  fold w1 in Hm. split; [exact Hm|].
  destruct (execute_all_members contexts w1) as (_ & -> & _). exact Hm.
Qed.

End Lifetime.

(** ** [execute] *)

Section ExecuteProperties.
Variable env : Environment.

(** X3. [execute] writes no member but [lastStepIndex], and the log of the
    interpreter only grows: the mass cache, the charge cache, [usesPeriodic],
    [hasInitialized] and the MPI state are as before. When it returns, what
    it returns is the bias read with "getBias" once the interpreter has
    received the commands of this call, and [lastStepIndex] is the [int] the
    step count of the call was read into. Its two flags have no effect. *)
Theorem execute_returns_bias context includeForces includeEnergy w :
  let r := Kernel.execute env context includeForces includeEnergy w in
  (forall energy, fst r = Ok energy ->
     energy = env_bias env (log_of (snd r))
     /\ Kernel.lastStepIndex (Kernel.self (snd r))
        = to_int (stepCount (platformData context)))
  /\ log_of (snd r) = log_of w ++ issued w (snd r)
  /\ Kernel.masses (Kernel.self (snd r)) = Kernel.masses (Kernel.self w)
  /\ Kernel.charges (Kernel.self (snd r)) = Kernel.charges (Kernel.self w)
  /\ Kernel.usesPeriodic (Kernel.self (snd r)) = Kernel.usesPeriodic (Kernel.self w)
  /\ Kernel.hasInitialized (Kernel.self (snd r)) = Kernel.hasInitialized (Kernel.self w)
  /\ Kernel.mpi_initialized (snd r) = Kernel.mpi_initialized w
  /\ (forall includeForces' includeEnergy',
        Kernel.execute env context includeForces' includeEnergy' w = r).
Proof.
  intros r. subst r. rewrite issued_execute, execute_run.
  split.
  { cbn [fst snd]. intros energy [= <-]. split; reflexivity. }
  repeat split; try reflexivity. intros f' e'. apply execute_run.
Qed.

(** X4. The commands of one call of [execute] come in a fixed order: the
    first announces the step, as the [int] the step count is read into
    (the step count itself within the range of [int], wrapped modulo 2^32
    outside it); "setMasses" carries the mass cache; what follows
    "performCalcNoUpdate" is "getBias", preceded by "update" exactly when
    that [int] differs from [lastStepIndex]; "prepareCalc",
    "performCalcNoUpdate", "setPositions", "setForces", "setVirial" and
    "getBias" are issued once each, and the updating "performCalc" never. *)
Theorem execute_command_order context includeForces includeEnergy w :
  let tr := issued w (snd (Kernel.execute env context includeForces includeEnergy w)) in
  let step := to_int (stepCount (platformData context)) in
  hd_error tr = Some (mkCmd "setStep" (PInt step))
  /\ payloads_of "setStep" tr = [PInt step]
  /\ - 2 ^ 31 <= step < 2 ^ 31
  /\ (- 2 ^ 31 <= stepCount (platformData context) < 2 ^ 31 ->
      step = stepCount (platformData context))
  /\ payloads_of "setMasses" tr = [PDoubles (Kernel.masses (Kernel.self w))]
  /\ payloads_of "setPositions" tr = [PVecs (extractPositions context)]
  /\ payloads_of "setForces" tr = [PVecs (extractForces context)]
  /\ after_key "performCalcNoUpdate" tr =
     (if step =? Kernel.lastStepIndex (Kernel.self w) then []
      else [mkCmd "update" PNull]) ++ [mkCmd "getBias" PDoubleOut]
  /\ after_key "prepareCalc" tr =
     mkCmd "performCalcNoUpdate" PNull :: after_key "performCalcNoUpdate" tr
  /\ count_cmd "setVirial" tr = 1%nat
  /\ count_cmd "performCalc" tr = 0%nat.
Proof.
  cbv zeta. rewrite issued_execute. unfold execute_cmds.
  pose proof (to_int_range (stepCount (platformData context))) as Hr.
  pose proof (to_int_in_range (stepCount (platformData context))) as Hi.
  destruct (0 <? Z.of_nat (length (Kernel.charges (Kernel.self w))));
    destruct (Kernel.usesPeriodic (Kernel.self w));
    destruct (to_int (stepCount (platformData context)) =? Kernel.lastStepIndex (Kernel.self w));
    cbn; repeat split; solve [reflexivity | apply Hr | exact Hi].
Qed.

(** X5. For every sequence of calls of [execute], monotone or not, "update"
    is issued in a call exactly when its step index, the [int] the step
    count is read into, differs from the one of the call before (from
    [lastStepIndex] for the first call): the updates for [s] are the places
    where the step index becomes [s], and the updates at all are the places
    where it changes. Step counts within the range of [int] are their own
    step indices. *)
Theorem update_iff_step_changes contexts w s :
  let tr := issued w (snd (Kernel.execute_all env contexts w)) in
  updates_for s tr =
    step_changes (Kernel.lastStepIndex (Kernel.self w)) s (steps_of contexts)
  /\ count_cmd "update" tr =
     changes (Kernel.lastStepIndex (Kernel.self w)) (steps_of contexts)
  /\ (Forall (fun c => - 2 ^ 31 <= stepCount (platformData c) < 2 ^ 31) contexts ->
      steps_of contexts = map (fun c => stepCount (platformData c)) contexts).
Proof.
  cbv zeta. rewrite issued_execute_all. unfold updates_for.
  rewrite updates_from_execute_all, count_update_execute_all.
  split; [reflexivity | split; [reflexivity | apply steps_of_in_range]].
Qed.

(** X6. The de-duplication looks at the call before only: when the step
    index (the [int] read) goes from [a] to a different [b] and back to [a],
    "update" is issued again for [a], twice in all if the kernel was not at
    [a] before (once if it was). *)
Theorem update_again_when_step_returns a b c1 c2 c3 w :
  a <> b ->
  to_int (stepCount (platformData c1)) = a ->
  to_int (stepCount (platformData c2)) = b ->
  to_int (stepCount (platformData c3)) = a ->
  let tr := issued w (snd (Kernel.execute_all env [c1; c2; c3] w)) in
  updates_for a tr =
    (if a =? Kernel.lastStepIndex (Kernel.self w) then 1%nat else 2%nat)
  /\ updates_for b tr = 1%nat.
Proof.
  intros Hab H1 H2 H3. cbv zeta. rewrite issued_execute_all. unfold updates_for.
  rewrite !updates_from_execute_all. cbn [steps_of map step_changes].
  rewrite H1, H2, H3, !Z.eqb_refl.
  assert (Eab : (a =? b) = false) by (apply Z.eqb_neq; exact Hab).
  assert (Eba : (b =? a) = false) by (apply Z.eqb_neq; congruence).
  rewrite Eab, Eba.
  destruct (a =? Kernel.lastStepIndex (Kernel.self w)); split; reflexivity.
Qed.

(** X22. Step counts that differ by a multiple of 2^32 are one step index
    for [execute]: a call whose step count is that of the call before plus
    [k * 2^32] announces the same step with "setStep" and issues no
    "update". *)
Theorem wrapped_step_is_same_step c1 c2 k w :
  stepCount (platformData c2) = stepCount (platformData c1) + k * 2 ^ 32 ->
  let w1 := snd (Kernel.execute env c1 true true w) in
  let tr1 := issued w w1 in
  let tr2 := issued w1 (snd (Kernel.execute env c2 true true w1)) in
  payloads_of "setStep" tr2 = payloads_of "setStep" tr1
  /\ count_cmd "update" tr2 = 0%nat.
Proof.
  intros H. cbv zeta.
  assert (Hp : forall k c, payloads_of "setStep" (execute_cmds k c)
                           = [PInt (to_int (stepCount (platformData c)))]).
  { intros k0 c. unfold execute_cmds.
    destruct (0 <? Z.of_nat (length (Kernel.charges k0)));
      destruct (Kernel.usesPeriodic k0);
      destruct (to_int (stepCount (platformData c)) =? Kernel.lastStepIndex k0);
      reflexivity. }
  rewrite !issued_execute, !Hp, count_update_execute_cmds.
  rewrite execute_run. cbn [snd Kernel.self Kernel.set_lastStepIndex Kernel.lastStepIndex].
  rewrite H, to_int_wrap, Z.eqb_refl. split; reflexivity.
Qed.

End ExecuteProperties.

Lemma update_again_when_step_returns_witness :
  4 <> 9
  /\ to_int (stepCount (platformData (ex_context 4))) = 4
  /\ to_int (stepCount (platformData (ex_context 9))) = 9
  /\ (let tr := issued ex_world
                  (snd (Kernel.execute_all (plumed_env 8)
                          [ex_context 4; ex_context 9; ex_context 4] ex_world)) in
      updates_for 4 tr =
        (if 4 =? Kernel.lastStepIndex (Kernel.self ex_world) then 1%nat else 2%nat)
      /\ updates_for 9 tr = 1%nat).
Proof.
  assert (Hab : 4 <> 9) by lia.
  assert (H1 : to_int (stepCount (platformData (ex_context 4))) = 4) by reflexivity.
  assert (H2 : to_int (stepCount (platformData (ex_context 9))) = 9) by reflexivity.
  split; [exact Hab | split; [exact H1 | split; [exact H2 |]]].
  exact (update_again_when_step_returns (plumed_env 8) 4 9
           (ex_context 4) (ex_context 9) (ex_context 4) ex_world Hab H1 H2 H1).
Defined.

Lemma wrapped_step_is_same_step_witness :
  stepCount (platformData (ex_context 4294967297))
  = stepCount (platformData (ex_context 1)) + 1 * 2 ^ 32
  /\ (let w1 := snd (Kernel.execute (plumed_env 8) (ex_context 1) true true ex_world) in
      let tr1 := issued ex_world w1 in
      let tr2 := issued w1 (snd (Kernel.execute (plumed_env 8) (ex_context 4294967297)
                                   true true w1)) in
      payloads_of "setStep" tr2 = payloads_of "setStep" tr1
      /\ count_cmd "update" tr2 = 0%nat).
Proof.
  assert (H : stepCount (platformData (ex_context 4294967297))
              = stepCount (platformData (ex_context 1)) + 1 * 2 ^ 32) by reflexivity.
  split; [exact H|].
  exact (wrapped_step_is_same_step (plumed_env 8) (ex_context 1)
           (ex_context 4294967297) 1 ex_world H).
Defined.

(** Step counts beyond the range of [int]: 1, 2^32 + 1 and 2^33 are announced
    as the steps 1, 1 and 0, and two updates are issued for the three calls. *)
Example steps_beyond_int_example :
  let contexts := [ex_context 1; ex_context 4294967297; ex_context 8589934592] in
  let w := snd (Kernel.initialize (plumed_env 8) ex_system ex_force ex_world) in
  let tr := issued w (snd (Kernel.execute_all (plumed_env 8) contexts w)) in
  payloads_of "setStep" tr = [PInt 1; PInt 1; PInt 0]
  /\ steps_of contexts = [1; 1; 0]
  /\ count_cmd "update" tr = 2%nat.
Proof. vm_compute. repeat split. Qed.

(** ** The charges of the nonbonded forces *)

Section Charges.

Lemma record_charges_unfold system :
  Kernel.record_charges system =
  Kernel.for_upto (getNumForces system)
    (fun j => Kernel.bind (Kernel.lift (getForce system j)) (charges_of_force system)).
Proof. reflexivity. Qed.

(** A loop over the indices of a list that reads the element at each index
    is a loop over the list. *)
Lemma for_each_seq_list system (body : Force -> Kernel.M unit) : forall l a w,
  drop a (sys_forces system) = l ->
  Kernel.for_each (seq a (length l))
    (fun j => Kernel.bind (Kernel.lift (getForce system j)) body) w
  = for_list l body w.
Proof.
  induction l as [|x l IH]; intros a w Hd; [reflexivity|].
  cbn [length seq Kernel.for_each for_list].
  assert (Hx : sys_forces system !! a = Some x).
  { rewrite <- (Nat.add_0_r a), <- lookup_drop, Hd. reflexivity. }
  assert (Hl : drop (S a) (sys_forces system) = l).
  { replace (S a) with (a + 1)%nat by lia.
    rewrite <- drop_drop, Hd. reflexivity. }
  unfold Kernel.bind at 1. unfold Kernel.bind at 1, Kernel.lift at 1, getForce at 1.
  rewrite Hx. unfold Kernel.bind at 2.
  destruct (body x w) as [[[]|e] w1]; [apply IH; exact Hl | reflexivity].
Qed.

Lemma with_charges_same w : with_charges (Kernel.charges (Kernel.self w)) w = w.
Proof. destruct w as [[ci p hi up last ms cs] mpi]; reflexivity. Qed.

(** The loop that copies the charges of a nonbonded force with enough
    particles. *)
Lemma copy_charges_loop nb : forall n a w,
  (a + n <= length (nb_particles nb))%nat ->
  exists cs',
    Kernel.for_each (seq a n) (charge_of_particle nb) w = (Ok tt, with_charges cs' w)
    /\ length cs' = length (Kernel.charges (Kernel.self w))
    /\ (forall i, (a <= i < a + n)%nat ->
                  (i < length (Kernel.charges (Kernel.self w)))%nat ->
                  cs' !! i = map (fun p => p.1.1) (nb_particles nb) !! i)
    /\ (forall i, ~ (a <= i < a + n)%nat ->
                  cs' !! i = Kernel.charges (Kernel.self w) !! i).
Proof.
  induction n as [|n IH]; intros a w Hle.
  - exists (Kernel.charges (Kernel.self w)). cbn.
    split; [rewrite with_charges_same; reflexivity|].
    split; [reflexivity | split; [intros; lia | reflexivity]].
  - cbn [seq Kernel.for_each]. unfold Kernel.bind at 1.
    unfold charge_of_particle at 1.
    unfold Kernel.bind at 1, Kernel.lift at 1, getParticleParameters at 1.
    destruct (nb_particles nb !! a) as [q|] eqn:Eq.
    2:{ apply lookup_ge_None_1 in Eq. lia. }
    cbn [Kernel.modify].
    match goal with |- context [Kernel.for_each _ _ ?w1] =>
      destruct (IH (S a) w1) as (cs' & Hrun & Hlen & Hin & Hout); [lia|];
      rewrite Hrun end.
    cbn [Kernel.self Kernel.set_charges Kernel.charges] in Hlen, Hin, Hout.
    rewrite length_insert in Hlen, Hin.
    exists cs'. split; [reflexivity|]. split; [exact Hlen|]. split.
    + intros i Hi Hlt. destruct (decide (i = a)) as [->|Hne].
      * rewrite Hout by lia. rewrite list_lookup_insert_eq by exact Hlt.
        rewrite list_lookup_fmap, Eq. reflexivity.
      * apply Hin; [lia | exact Hlt].
    + intros i Hi. rewrite Hout by lia. apply list_lookup_insert_ne. lia.
Qed.

(** The same loop on a nonbonded force with too few particles throws. *)
Lemma copy_charges_loop_short nb : forall n a w,
  (0 < n)%nat -> (length (nb_particles nb) < a + n)%nat ->
  fst (Kernel.for_each (seq a n) (charge_of_particle nb) w) = Throw index_out_of_range.
Proof.
  induction n as [|n IH]; intros a w Hn Hlt; [lia|].
  cbn [seq Kernel.for_each]. unfold Kernel.bind at 1.
  unfold charge_of_particle at 1.
  unfold Kernel.bind at 1, Kernel.lift at 1, getParticleParameters at 1.
  destruct (nb_particles nb !! a) as [q|] eqn:Eq; [|reflexivity].
  apply lookup_lt_Some in Eq. cbn [Kernel.modify].
  apply IH; lia.
Qed.

(** One force: nothing for a force that is not nonbonded; the first [N]
    charges of a nonbonded force with at least [N] particles; an exception
    for a nonbonded force with fewer. *)
Lemma charges_of_force_run system f w :
  charges_of_force system f w =
  match dynamic_cast_NonbondedForce f with
  | None => (Ok tt, w)
  | Some nb =>
      if covers (length (sys_masses system)) nb then
        (Ok tt, with_charges (nb_charges (length (sys_masses system)) nb) w)
      else charges_of_force system f w
  end
  /\ (forall nb, dynamic_cast_NonbondedForce f = Some nb ->
        covers (length (sys_masses system)) nb = false ->
        fst (charges_of_force system f w) = Throw index_out_of_range).
Proof.
  unfold charges_of_force, getNumParticles.
  destruct (dynamic_cast_NonbondedForce f) as [nb|];
    [|split; [reflexivity | intros ? H; discriminate H]].
  unfold covers. rewrite Nat2Z.id. unfold Kernel.for_upto. rewrite Nat2Z.id.
  unfold Kernel.bind at 1 3. cbn [Kernel.modify].
  destruct (length (sys_masses system) <=? length (nb_particles nb))%nat eqn:E.
  - apply Nat.leb_le in E. split; [|intros nb' [= <-] Hc; apply Nat.leb_gt in Hc; lia].
    match goal with |- context [Kernel.for_each _ _ ?w1] =>
      destruct (copy_charges_loop nb (length (sys_masses system)) 0 w1)
        as (cs' & Hrun & Hlen & Hin & Hout); [lia|] end.
    rewrite Hrun.
    cbn [Kernel.self Kernel.set_charges Kernel.charges] in Hlen, Hin, Hout.
    rewrite length_resize in Hlen, Hin.
    assert (cs' = nb_charges (length (sys_masses system)) nb) as ->; [|reflexivity].
    apply list_eq. intros i. unfold nb_charges.
    destruct (decide (i < length (sys_masses system))%nat) as [Hi|Hi].
    + rewrite Hin by lia. rewrite lookup_take_lt by exact Hi. reflexivity.
    + rewrite (lookup_ge_None_2 cs') by lia.
      rewrite lookup_ge_None_2; [reflexivity|].
      rewrite length_take, length_map. lia.
  - apply Nat.leb_gt in E. split; [reflexivity|].
    intros nb' [= <-] _. apply copy_charges_loop_short; lia.
Qed.

(** All the forces: the loop succeeds when every nonbonded force has at
    least [N] particles, and then the cache is as [charges_after] says. *)
Lemma charges_for_list_ok system : forall fs w,
  forallb (covers (length (sys_masses system))) (nonbonded_forces fs) = true ->
  for_list fs (charges_of_force system) w =
  (Ok tt,
   with_charges
     (charges_after (length (sys_masses system)) (Kernel.charges (Kernel.self w)) fs) w).
Proof.
  induction fs as [|f fs IH]; intros w H.
  - cbn. rewrite with_charges_same. reflexivity.
  - cbn [for_list nonbonded_forces charges_after] in *. unfold Kernel.bind.
    destruct (charges_of_force_run system f w) as [Hrun _]. rewrite Hrun.
    destruct (dynamic_cast_NonbondedForce f) as [nb|]; [|apply IH; exact H].
    cbn [forallb] in H. apply andb_prop in H as [Hc H]. rewrite Hc.
    rewrite IH by exact H. reflexivity.
Qed.

Lemma charges_for_list_short system : forall fs w,
  forallb (covers (length (sys_masses system))) (nonbonded_forces fs) = false ->
  fst (for_list fs (charges_of_force system) w) = Throw index_out_of_range.
Proof.
  induction fs as [|f fs IH]; intros w H; [discriminate H|].
  cbn [for_list nonbonded_forces] in *. unfold Kernel.bind.
  destruct (charges_of_force_run system f w) as [Hrun Hshort].
  destruct (dynamic_cast_NonbondedForce f) as [nb|] eqn:Ef.
  - cbn [forallb] in H.
    destruct (covers (length (sys_masses system)) nb) eqn:Hc.
    + rewrite Hrun. apply IH. exact H.
    + specialize (Hshort nb eq_refl Hc).
      destruct (charges_of_force system f w) as [[[]|e] w1];
        cbn [fst] in *; [discriminate Hshort | exact Hshort].
  - rewrite Hrun. apply IH. exact H.
Qed.

(** The block that records the charges, as a whole. *)
Lemma record_charges_run system w :
  (forallb (covers (length (sys_masses system)))
     (nonbonded_forces (sys_forces system)) = true ->
   Kernel.record_charges system w =
   (Ok tt,
    with_charges
      (charges_after (length (sys_masses system)) (Kernel.charges (Kernel.self w))
         (sys_forces system)) w))
  /\ (forallb (covers (length (sys_masses system)))
        (nonbonded_forces (sys_forces system)) = false ->
      fst (Kernel.record_charges system w) = Throw index_out_of_range).
Proof.
  rewrite record_charges_unfold. unfold Kernel.for_upto, getNumForces.
  rewrite Nat2Z.id.
  rewrite (for_each_seq_list system (charges_of_force system)
             (sys_forces system) 0 w eq_refl).
  split; [apply charges_for_list_ok | apply charges_for_list_short].
Qed.

End Charges.

(** ** The outcome of [initialize] *)

Section InitializeOutcome.
Variable env : Environment.

(** [initialize] with the mass block decided by [masses_mismatched]. *)
Lemma initialize_result system force w :
  Kernel.initialize env system force w =
  if env_apiVersion env <? 4 then
    (Throw Kernel.unsupported_api, interfaced (grex_cmds env force) w)
  else if masses_mismatched system force then
    (Throw Kernel.masses_mismatch,
     with_masses (resize (length (sys_masses system)) 0%float
                    (Kernel.masses (Kernel.self w)))
       (before_masses env system force w))
  else
    Kernel.record_charges system
      (with_masses
         (if Z.of_nat (length (PlumedForce.getMasses force)) =? 0
          then sys_masses system else PlumedForce.getMasses force)
         (before_masses env system force w)).
Proof.
  rewrite initialize_run. unfold masses_mismatched.
  destruct (env_apiVersion env <? 4); [reflexivity|].
  destruct (Z.of_nat (length (PlumedForce.getMasses force)) =? 0); [reflexivity|].
  destruct (Z.of_nat (length (PlumedForce.getMasses force)) =? getNumParticles system);
    reflexivity.
Qed.

Lemma masses_mismatched_spec system force :
  masses_mismatched system force = true <->
  length (PlumedForce.getMasses force) <> 0%nat
  /\ length (PlumedForce.getMasses force) <> length (sys_masses system).
Proof.
  unfold masses_mismatched, getNumParticles.
  rewrite andb_true_iff, !negb_true_iff, !Z.eqb_neq. lia.
Qed.

Ltac outcome_cases :=
  repeat split; intros;
  solve [ discriminate | lia | congruence
        | intuition (try congruence; try lia; try discriminate) ].

(** X7. What each outcome of [initialize] tells. If it returns normally,
    then the API version is at least 4, the number of mass overrides is 0 or
    the number of particles [N], and every nonbonded force of the system has
    at least [N] particles: a nonbonded force with fewer particles, a wrong
    number of masses or an old version each rule a normal return out. If it
    throws the version error, the version is below 4; if it throws the error
    about the number of masses, the version was accepted and the number is
    wrong; if it throws the index error, the version was accepted, the
    number of masses is right and some nonbonded force has fewer than [N]
    particles: the three checks come in this order. *)
Theorem initialize_outcome system force w :
  let r := fst (Kernel.initialize env system force w) in
  let N := length (sys_masses system) in
  let short := forallb (covers N) (nonbonded_forces (sys_forces system)) = false in
  (r = Ok tt ->
     4 <= env_apiVersion env
     /\ masses_mismatched system force = false
     /\ ~ short)
  /\ (r = Throw Kernel.unsupported_api -> env_apiVersion env < 4)
  /\ (r = Throw Kernel.masses_mismatch ->
        4 <= env_apiVersion env /\ masses_mismatched system force = true)
  /\ (r = Throw index_out_of_range ->
        4 <= env_apiVersion env /\ masses_mismatched system force = false /\ short).
Proof.
  cbv zeta. rewrite initialize_result.
  destruct (env_apiVersion env <? 4) eqn:E.
  { apply Z.ltb_lt in E. cbn [fst]. outcome_cases. }
  apply Z.ltb_ge in E.
  destruct (masses_mismatched system force) eqn:Em.
  { cbn [fst]. outcome_cases. }
  match goal with |- context [Kernel.record_charges system ?w1] =>
    destruct (record_charges_run system w1) as [Hok Hshort] end.
  destruct (forallb (covers (length (sys_masses system)))
              (nonbonded_forces (sys_forces system))) eqn:Ef.
  - rewrite (Hok eq_refl). cbn [fst]. outcome_cases.
  - rewrite (Hshort eq_refl). outcome_cases.
Qed.

(** X8. When the API version is refused, the interpreter has received the
    communicator commands and the version query only, and [initialize] has
    touched neither the mass cache, the charge cache, [usesPeriodic] nor
    [lastStepIndex]; [hasInitialized] is set all the same. *)
Theorem refused_version_leaves_caches system force w :
  env_apiVersion env < 4 ->
  let r := Kernel.initialize env system force w in
  fst r = Throw Kernel.unsupported_api
  /\ log_of (snd r) =
     (if env_rank env (PlumedForce.getIntracom force) =? 0
      then [mkCmd "GREX setMPIIntercomm" (PComm (PlumedForce.getIntercom force))]
      else [])
     ++ [mkCmd "GREX setMPIIntracomm" (PComm (PlumedForce.getIntracom force));
         mkCmd "GREX init" PNull;
         mkCmd "setMPIComm" (PComm (PlumedForce.getIntracom force));
         mkCmd "getApiVersion" PIntOut]
  /\ Kernel.masses (Kernel.self (snd r)) = Kernel.masses (Kernel.self w)
  /\ Kernel.charges (Kernel.self (snd r)) = Kernel.charges (Kernel.self w)
  /\ Kernel.usesPeriodic (Kernel.self (snd r)) = Kernel.usesPeriodic (Kernel.self w)
  /\ Kernel.lastStepIndex (Kernel.self (snd r)) = Kernel.lastStepIndex (Kernel.self w)
  /\ Kernel.hasInitialized (Kernel.self (snd r)) = true.
Proof.
  intros Hv r. subst r. rewrite initialize_result.
  apply Z.ltb_lt in Hv. rewrite Hv. repeat split.
Qed.

(** X9. A failure on the number of masses is not undone: the mass cache is
    left resized to the number of particles (all zeros for a kernel just
    constructed), [usesPeriodic] is already recorded, the charge cache is as
    before. *)
Theorem masses_mismatch_leaves_resized_cache system force w :
  4 <= env_apiVersion env ->
  masses_mismatched system force = true ->
  let w' := snd (Kernel.initialize env system force w) in
  Kernel.masses (Kernel.self w') =
    resize (length (sys_masses system)) 0%float (Kernel.masses (Kernel.self w))
  /\ (Kernel.masses (Kernel.self w) = [] ->
      Kernel.masses (Kernel.self w') = replicate (length (sys_masses system)) 0%float)
  /\ Kernel.usesPeriodic (Kernel.self w') = System_usesPeriodicBoundaryConditions system
  /\ Kernel.charges (Kernel.self w') = Kernel.charges (Kernel.self w)
  /\ Kernel.hasInitialized (Kernel.self w') = true.
Proof.
  intros Hv Hm w'. subst w'. rewrite initialize_result.
  destruct (env_apiVersion env <? 4) eqn:E; [apply Z.ltb_lt in E; lia|].
  rewrite Hm. cbn. repeat split.
  intros ->. apply resize_nil.
Qed.

End InitializeOutcome.

(** Each of the four outcomes occurs: a normal return, the version error,
    the error about the number of masses, and the index error of a nonbonded
    force with one particle in a system of two. *)
Example initialize_outcomes_example :
  let short_system :=
    mkSystem [1%float; 2%float]
      [FNonbonded (mkNonbonded [(0.5%float, 1%float, 1%float)] false)] in
  fst (Kernel.initialize (plumed_env 8) ex_system ex_force ex_world) = Ok tt
  /\ fst (Kernel.initialize (plumed_env 3) ex_system ex_force ex_world)
     = Throw Kernel.unsupported_api
  /\ fst (Kernel.initialize (plumed_env 8) ex_system
            (PlumedForce.setMasses [5%float] ex_force) ex_world)
     = Throw Kernel.masses_mismatch
  /\ fst (Kernel.initialize (plumed_env 8) short_system ex_force ex_world)
     = Throw index_out_of_range.
Proof. vm_compute. repeat split. Qed.

Lemma initialize_outcome_witness :
  fst (Kernel.initialize (plumed_env 8) ex_periodic_system ex_force ex_world) = Ok tt
  /\ (4 <= env_apiVersion (plumed_env 8)
      /\ masses_mismatched ex_periodic_system ex_force = false
      /\ ~ forallb (covers (length (sys_masses ex_periodic_system)))
            (nonbonded_forces (sys_forces ex_periodic_system)) = false).
Proof.
  assert (Hok : fst (Kernel.initialize (plumed_env 8) ex_periodic_system ex_force
                       ex_world) = Ok tt) by (vm_compute; reflexivity).
  split; [exact Hok|].
  exact (proj1 (initialize_outcome (plumed_env 8) ex_periodic_system ex_force ex_world)
           Hok).
Defined.

Lemma refused_version_leaves_caches_witness :
  env_apiVersion (plumed_env 3) < 4
  /\ (let r := Kernel.initialize (plumed_env 3) ex_system ex_force ex_world in
      fst r = Throw Kernel.unsupported_api
      /\ log_of (snd r) =
         (if env_rank (plumed_env 3) (PlumedForce.getIntracom ex_force) =? 0
          then [mkCmd "GREX setMPIIntercomm" (PComm (PlumedForce.getIntercom ex_force))]
          else [])
         ++ [mkCmd "GREX setMPIIntracomm" (PComm (PlumedForce.getIntracom ex_force));
             mkCmd "GREX init" PNull;
             mkCmd "setMPIComm" (PComm (PlumedForce.getIntracom ex_force));
             mkCmd "getApiVersion" PIntOut]
      /\ Kernel.masses (Kernel.self (snd r)) = Kernel.masses (Kernel.self ex_world)
      /\ Kernel.charges (Kernel.self (snd r)) = Kernel.charges (Kernel.self ex_world)
      /\ Kernel.usesPeriodic (Kernel.self (snd r)) = Kernel.usesPeriodic (Kernel.self ex_world)
      /\ Kernel.lastStepIndex (Kernel.self (snd r))
         = Kernel.lastStepIndex (Kernel.self ex_world)
      /\ Kernel.hasInitialized (Kernel.self (snd r)) = true).
Proof.
  assert (Hv : env_apiVersion (plumed_env 3) < 4) by (cbn; lia).
  split; [exact Hv|].
  exact (refused_version_leaves_caches (plumed_env 3) ex_system ex_force ex_world Hv).
Defined.

Lemma masses_mismatch_leaves_resized_cache_witness :
  4 <= env_apiVersion (plumed_env 8)
  /\ masses_mismatched ex_system (PlumedForce.setMasses [5%float] ex_force) = true
  /\ (let w' := snd (Kernel.initialize (plumed_env 8) ex_system
                       (PlumedForce.setMasses [5%float] ex_force) ex_world) in
      Kernel.masses (Kernel.self w') =
        resize (length (sys_masses ex_system)) 0%float (Kernel.masses (Kernel.self ex_world))
      /\ (Kernel.masses (Kernel.self ex_world) = [] ->
          Kernel.masses (Kernel.self w')
          = replicate (length (sys_masses ex_system)) 0%float)
      /\ Kernel.usesPeriodic (Kernel.self w')
         = System_usesPeriodicBoundaryConditions ex_system
      /\ Kernel.charges (Kernel.self w') = Kernel.charges (Kernel.self ex_world)
      /\ Kernel.hasInitialized (Kernel.self w') = true).
Proof.
  assert (Hv : 4 <= env_apiVersion (plumed_env 8)) by (cbn; lia).
  assert (Hm : masses_mismatched ex_system (PlumedForce.setMasses [5%float] ex_force)
               = true) by reflexivity.
  split; [exact Hv | split; [exact Hm |]].
  exact (masses_mismatch_leaves_resized_cache (plumed_env 8) ex_system
           (PlumedForce.setMasses [5%float] ex_force) ex_world Hv Hm).
Defined.

(** ** What a successful [initialize] caches, and what [execute] pushes *)

Section Caches.
Variable env : Environment.

Lemma charges_after_none n : forall fs cs,
  nonbonded_forces fs = [] -> charges_after n cs fs = cs.
Proof.
  induction fs as [|f fs IH]; intros cs H; [reflexivity|].
  cbn [nonbonded_forces charges_after] in *.
  destruct (dynamic_cast_NonbondedForce f); [discriminate H | apply IH; exact H].
Qed.

Lemma charges_after_last n nb fs2 : forall fs1 cs,
  nonbonded_forces fs2 = [] ->
  charges_after n cs (fs1 ++ FNonbonded nb :: fs2) = nb_charges n nb.
Proof.
  induction fs1 as [|f fs1 IH]; intros cs H.
  - cbn. apply charges_after_none. exact H.
  - cbn [app charges_after].
    destruct (dynamic_cast_NonbondedForce f); apply IH; exact H.
Qed.

Lemma covers_member n nb fs2 : forall fs1,
  forallb (covers n) (nonbonded_forces (fs1 ++ FNonbonded nb :: fs2)) = true ->
  covers n nb = true.
Proof.
  induction fs1 as [|f fs1 IH]; intros H.
  - cbn in H. apply andb_prop in H as [H _]. exact H.
  - cbn [app nonbonded_forces] in H.
    destruct (dynamic_cast_NonbondedForce f); [|apply IH; exact H].
    cbn in H. apply andb_prop in H as [_ H]. apply IH; exact H.
Qed.

(** The state after an [initialize] that returned normally. *)
Lemma initialize_ok_state system force w :
  fst (Kernel.initialize env system force w) = Ok tt ->
  4 <= env_apiVersion env
  /\ masses_mismatched system force = false
  /\ Kernel.initialize env system force w =
     (Ok tt,
      with_charges
        (charges_after (length (sys_masses system)) (Kernel.charges (Kernel.self w))
           (sys_forces system))
        (with_masses
           (if Z.of_nat (length (PlumedForce.getMasses force)) =? 0
            then sys_masses system else PlumedForce.getMasses force)
           (before_masses env system force w)))
  /\ forallb (covers (length (sys_masses system)))
       (nonbonded_forces (sys_forces system)) = true.
Proof.
  rewrite initialize_result.
  destruct (env_apiVersion env <? 4) eqn:E; [discriminate|].
  apply Z.ltb_ge in E.
  destruct (masses_mismatched system force) eqn:Em; [discriminate|].
  match goal with |- context [Kernel.record_charges system ?w1] =>
    destruct (record_charges_run system w1) as [Hok Hshort] end.
  destruct (forallb (covers (length (sys_masses system)))
              (nonbonded_forces (sys_forces system))) eqn:Ef.
  - intros _. rewrite (Hok eq_refl). repeat split; assumption.
  - rewrite (Hshort eq_refl). discriminate.
Qed.

(** X10. After an [initialize] that returned normally on a system with a
    nonbonded force, the charge cache holds the charges of the first [N]
    particles of the last nonbonded force of the system ([N] the number of
    particles of the system): a later nonbonded force replaces what an
    earlier one gave, and the cache has one charge per particle. *)
Theorem charges_of_last_nonbonded system force w fs1 nb fs2 :
  fst (Kernel.initialize env system force w) = Ok tt ->
  sys_forces system = fs1 ++ FNonbonded nb :: fs2 ->
  nonbonded_forces fs2 = [] ->
  let w' := snd (Kernel.initialize env system force w) in
  Kernel.charges (Kernel.self w') = nb_charges (length (sys_masses system)) nb
  /\ length (Kernel.charges (Kernel.self w')) = length (sys_masses system).
Proof.
  intros Hok Hfs Hlast w'. subst w'.
  destruct (initialize_ok_state system force w Hok) as (_ & _ & -> & Hc).
  cbn [snd with_charges Kernel.self Kernel.set_charges Kernel.charges].
  rewrite Hfs in Hc |- *. rewrite charges_after_last by exact Hlast.
  split; [reflexivity|].
  apply covers_member in Hc. unfold covers in Hc. apply Nat.leb_le in Hc.
  unfold nb_charges. rewrite length_take, length_map. lia.
Qed.

(** X11. After an [initialize] that returned normally, the mass cache has
    one mass per particle, as many as "setNatoms" announced, and every later
    call of [execute] pushes this very array with "setMasses"; it pushes the
    charge cache with "setCharges" exactly when that cache is not empty. *)
Theorem execute_pushes_cached_arrays system force w contexts context
    includeForces includeEnergy :
  fst (Kernel.initialize env system force w) = Ok tt ->
  let w1 := snd (Kernel.initialize env system force w) in
  let w2 := snd (Kernel.execute_all env contexts w1) in
  let tr := issued w2 (snd (Kernel.execute env context includeForces includeEnergy w2)) in
  payloads_of "setNatoms" (log_of w1) = [PInt (getNumParticles system)]
  /\ Z.of_nat (length (Kernel.masses (Kernel.self w1))) = getNumParticles system
  /\ payloads_of "setMasses" tr = [PDoubles (Kernel.masses (Kernel.self w1))]
  /\ payloads_of "setCharges" tr =
     match Kernel.charges (Kernel.self w1) with
     | [] => []
     | cs => [PDoubles cs]
     end.
Proof.
  intros Hok w1 w2 tr.
  destruct (initialize_ok_state system force w Hok) as (Hv & Hm & Hrun & _).
  destruct (execute_all_members env contexts w1) as (_ & _ & Hms & Hcs & _).
  fold w2 in Hms, Hcs.
  assert (Hlen : Z.of_nat (length (Kernel.masses (Kernel.self w1)))
                 = getNumParticles system).
  { subst w1. rewrite Hrun.
    cbn [snd with_charges with_masses Kernel.self Kernel.set_charges
         Kernel.set_masses Kernel.masses].
    unfold masses_mismatched in Hm. unfold getNumParticles in *.
    destruct (Z.of_nat (length (PlumedForce.getMasses force)) =? 0) eqn:E0;
      [reflexivity|].
    destruct (Z.of_nat (length (PlumedForce.getMasses force))
              =? Z.of_nat (length (sys_masses system))) eqn:EN;
      [apply Z.eqb_eq in EN; exact EN | discriminate Hm]. }
  split.
  { subst w1. rewrite initialize_log.
    destruct (env_apiVersion env <? 4) eqn:E; [apply Z.ltb_lt in E; lia|].
    unfold grex_cmds, setup_cmds, script_cmds.
    destruct (env_rank env (PlumedForce.getIntracom force) =? 0);
      destruct (0 <=? PlumedForce.getTemperature force * BOLTZ env)%float;
      destruct (7 <? env_apiVersion env); cbn; try reflexivity;
      induction (script_lines (c_str (PlumedForce.getScript force)));
      cbn; auto. }
  split; [exact Hlen|].
  subst tr. rewrite issued_execute. unfold execute_cmds. rewrite Hms, Hcs.
  destruct (Kernel.charges (Kernel.self w1)) as [|c cs];
    destruct (Kernel.usesPeriodic (Kernel.self w2));
    destruct (to_int (stepCount (platformData context)) =? Kernel.lastStepIndex (Kernel.self w2));
    cbn; split; reflexivity.
Qed.

End Caches.

Lemma charges_of_last_nonbonded_witness :
  fst (Kernel.initialize (plumed_env 8) ex_periodic_system ex_force ex_world) = Ok tt
  /\ sys_forces ex_periodic_system =
     [] ++ FNonbonded (mkNonbonded [(0.5%float, 1%float, 1%float);
                                    ((-0.5)%float, 1%float, 1%float)] true)
        :: [FPlumed ex_force]
  /\ nonbonded_forces [FPlumed ex_force] = []
  /\ (let w' := snd (Kernel.initialize (plumed_env 8) ex_periodic_system ex_force
                       ex_world) in
      Kernel.charges (Kernel.self w') =
        nb_charges (length (sys_masses ex_periodic_system))
          (mkNonbonded [(0.5%float, 1%float, 1%float);
                        ((-0.5)%float, 1%float, 1%float)] true)
      /\ length (Kernel.charges (Kernel.self w'))
         = length (sys_masses ex_periodic_system)).
Proof.
  assert (Hok : fst (Kernel.initialize (plumed_env 8) ex_periodic_system ex_force
                       ex_world) = Ok tt) by (vm_compute; reflexivity).
  assert (Hfs : sys_forces ex_periodic_system =
     [] ++ FNonbonded (mkNonbonded [(0.5%float, 1%float, 1%float);
                                    ((-0.5)%float, 1%float, 1%float)] true)
        :: [FPlumed ex_force]) by reflexivity.
  assert (Hl : nonbonded_forces [FPlumed ex_force] = []) by reflexivity.
  split; [exact Hok | split; [exact Hfs | split; [exact Hl |]]].
  exact (charges_of_last_nonbonded (plumed_env 8) ex_periodic_system ex_force ex_world
           [] _ [FPlumed ex_force] Hok Hfs Hl).
Defined.

Lemma execute_pushes_cached_arrays_witness :
  fst (Kernel.initialize (plumed_env 8) ex_periodic_system ex_force ex_world) = Ok tt
  /\ (let w1 := snd (Kernel.initialize (plumed_env 8) ex_periodic_system ex_force
                       ex_world) in
      let w2 := snd (Kernel.execute_all (plumed_env 8) [ex_context 1] w1) in
      let tr := issued w2 (snd (Kernel.execute (plumed_env 8) (ex_context 2)
                                  true true w2)) in
      payloads_of "setNatoms" (log_of w1) = [PInt (getNumParticles ex_periodic_system)]
      /\ Z.of_nat (length (Kernel.masses (Kernel.self w1)))
         = getNumParticles ex_periodic_system
      /\ payloads_of "setMasses" tr = [PDoubles (Kernel.masses (Kernel.self w1))]
      /\ payloads_of "setCharges" tr =
         match Kernel.charges (Kernel.self w1) with
         | [] => []
         | cs => [PDoubles cs]
         end).
Proof.
  assert (Hok : fst (Kernel.initialize (plumed_env 8) ex_periodic_system ex_force
                       ex_world) = Ok tt) by (vm_compute; reflexivity).
  split; [exact Hok|].
  exact (execute_pushes_cached_arrays (plumed_env 8) ex_periodic_system ex_force
           ex_world [ex_context 1] (ex_context 2) true true Hok).
Defined.

(** ** The order and the payloads of the commands of [initialize] *)

Section InitializeCommands.
Variable env : Environment.

Lemma payloads_of_app key l1 l2 :
  payloads_of key (l1 ++ l2) = payloads_of key l1 ++ payloads_of key l2.
Proof.
  induction l1 as [|c l1 IH]; cbn; [reflexivity|].
  destruct (key_is key c); cbn; rewrite IH; reflexivity.
Qed.

Lemma after_key_app_in key l1 l2 :
  existsb (key_is key) l1 = true ->
  after_key key (l1 ++ l2) = after_key key l1 ++ l2.
Proof.
  induction l1 as [|c l1 IH]; cbn; [discriminate|].
  destruct (key_is key c); cbn; [reflexivity | exact IH].
Qed.

Lemma payloads_lines_other key lines :
  String.eqb "readInputLine" key = false ->
  payloads_of key (map (fun line => mkCmd "readInputLine" (PStr line)) lines) = [].
Proof.
  intros H. induction lines as [|l lines IH]; [reflexivity|].
  cbn [map payloads_of]. unfold key_is at 1; cbn [cmd_key]. rewrite H. exact IH.
Qed.

Lemma payloads_script_other key force :
  String.eqb "readInputLine" key = false ->
  String.eqb "readInputLines" key = false ->
  payloads_of key (script_cmds env force) = [].
Proof.
  intros H1 H2. unfold script_cmds. destruct (7 <? env_apiVersion env).
  - cbn [payloads_of]. unfold key_is; cbn [cmd_key]. rewrite H2. reflexivity.
  - apply payloads_lines_other. exact H1.
Qed.

Lemma count_script_other key force :
  String.eqb "readInputLine" key = false ->
  String.eqb "readInputLines" key = false ->
  count_cmd key (script_cmds env force) = 0%nat.
Proof.
  intros H1 H2. unfold script_cmds. destruct (7 <? env_apiVersion env).
  - cbn [count_cmd]. unfold key_is; cbn [cmd_key]. rewrite H2. reflexivity.
  - apply count_lines. exact H1.
Qed.

(** The payloads with a key that is no ingestion key are those of the first
    two groups of commands. *)
Lemma initialize_payloads key system force w :
  String.eqb "readInputLine" key = false ->
  String.eqb "readInputLines" key = false ->
  payloads_of key (log_of (snd (Kernel.initialize env system force w))) =
  payloads_of key (grex_cmds env force) ++
  (if env_apiVersion env <? 4 then []
   else payloads_of key
          (setup_cmds env system force
             (integrator_stepSize (Kernel.contextImpl (Kernel.self w))))).
Proof.
  intros H1 H2. rewrite initialize_log.
  destruct (env_apiVersion env <? 4); [rewrite app_nil_r; reflexivity|].
  rewrite !payloads_of_app, payloads_script_other, app_nil_r by assumption.
  reflexivity.
Qed.

(** X12. In every outcome of [initialize] the interpreter is given the
    intra-communicator twice, with "GREX setMPIIntracomm" and with
    "setMPIComm"; it is given the inter-communicator, with
    "GREX setMPIIntercomm", exactly when this process has rank 0 in the
    intra-communicator, and then before the intra-communicator. *)
Theorem communicators_by_rank system force w :
  let log := log_of (snd (Kernel.initialize env system force w)) in
  let intra := PlumedForce.getIntracom force in
  let inter := PlumedForce.getIntercom force in
  payloads_of "GREX setMPIIntercomm" log =
    (if env_rank env intra =? 0 then [PComm inter] else [])
  /\ payloads_of "GREX setMPIIntracomm" log = [PComm intra]
  /\ payloads_of "setMPIComm" log = [PComm intra]
  /\ hd_error log =
     Some (if env_rank env intra =? 0
           then mkCmd "GREX setMPIIntercomm" (PComm inter)
           else mkCmd "GREX setMPIIntracomm" (PComm intra))
  /\ payloads_of "GREX setMPIIntercomm" (after_key "GREX setMPIIntracomm" log) = [].
Proof.
  cbv zeta. rewrite !initialize_payloads by reflexivity.
  rewrite initialize_log. unfold grex_cmds, setup_cmds.
  destruct (env_rank env (PlumedForce.getIntracom force) =? 0);
    destruct (env_apiVersion env <? 4);
    destruct (0 <=? PlumedForce.getTemperature force * BOLTZ env)%float;
    cbn; repeat split;
    rewrite ?payloads_of_app, ?payloads_script_other by reflexivity;
    reflexivity.
Qed.

(** X13. "init" is issued once when the API version is accepted and not at
    all when it is refused; in every outcome the commands that come after
    "init" are exactly the commands that feed the script: every setting is
    sent before "init", and nothing but the script after it. *)
Theorem script_follows_init system force w :
  let log := log_of (snd (Kernel.initialize env system force w)) in
  count_cmd "init" log = (if env_apiVersion env <? 4 then 0%nat else 1%nat)
  /\ after_key "init" log = ingestion log
  /\ ingestion (after_key "init" log) = after_key "init" log.
Proof.
  cbv zeta. rewrite initialize_ingestion, initialize_log.
  destruct (env_apiVersion env <? 4).
  - unfold grex_cmds.
    destruct (env_rank env (PlumedForce.getIntracom force) =? 0);
      repeat split.
  - rewrite app_assoc, count_cmd_app, count_script_other by reflexivity.
    rewrite after_key_app_in.
    + unfold grex_cmds, setup_cmds.
      destruct (env_rank env (PlumedForce.getIntracom force) =? 0);
        destruct (0 <=? PlumedForce.getTemperature force * BOLTZ env)%float;
        cbn; repeat split; apply ingestion_script.
    + unfold grex_cmds, setup_cmds.
      destruct (env_rank env (PlumedForce.getIntracom force) =? 0);
        destruct (0 <=? PlumedForce.getTemperature force * BOLTZ env)%float;
        reflexivity.
Qed.

(** X14. When the API version is accepted every static parameter is pushed
    exactly once, with the value the code takes it from: precision 8, the
    three unit factors 1.0, the engine name "OpenMM", the log stream and the
    restart flag (as 0 or 1) of the descriptor, the number of particles of
    the system, the step size of the integrator of the context the kernel
    was constructed with. When the version is refused none of them is
    pushed. *)
Theorem static_parameters system force w :
  let log := log_of (snd (Kernel.initialize env system force w)) in
  let sent v := if env_apiVersion env <? 4 then [] else [v] in
  payloads_of "setRealPrecision" log = sent (PInt 8)
  /\ payloads_of "setMDEnergyUnits" log = sent (PDouble 1%float)
  /\ payloads_of "setMDLengthUnits" log = sent (PDouble 1%float)
  /\ payloads_of "setMDTimeUnits" log = sent (PDouble 1%float)
  /\ payloads_of "setMDEngine" log = sent (PStr "OpenMM")
  /\ payloads_of "setLog" log = sent (PStream (PlumedForce.getLogStream force))
  /\ payloads_of "setNatoms" log = sent (PInt (getNumParticles system))
  /\ payloads_of "setTimestep" log =
     sent (PDouble (integrator_stepSize (Kernel.contextImpl (Kernel.self w))))
  /\ payloads_of "setRestart" log =
     sent (PInt (if PlumedForce.getRestart force then 1 else 0)).
Proof.
  cbv zeta. rewrite !initialize_payloads by reflexivity.
  unfold grex_cmds, setup_cmds.
  destruct (env_rank env (PlumedForce.getIntracom force) =? 0);
    destruct (env_apiVersion env <? 4);
    destruct (0 <=? PlumedForce.getTemperature force * BOLTZ env)%float;
    cbn; repeat split.
Qed.

(** X15. [initialize] always starts a new interpreter: what the handle the
    kernel held before had received is not carried over. Whatever the kernel
    did before (an earlier [initialize], calls of [execute]), as long as it
    is bound to the same context, [initialize] leaves the same log. *)
Theorem initialize_starts_new_interpreter system force w1 w2 :
  Kernel.contextImpl (Kernel.self w1) = Kernel.contextImpl (Kernel.self w2) ->
  log_of (snd (Kernel.initialize env system force w1)) =
  log_of (snd (Kernel.initialize env system force w2)).
Proof.
  intros H. rewrite !initialize_log, H. reflexivity.
Qed.

End InitializeCommands.

Lemma initialize_starts_new_interpreter_witness :
  Kernel.contextImpl (Kernel.self
    (snd (Kernel.execute_all (plumed_env 8) [ex_context 0; ex_context 1]
            (snd (Kernel.initialize (plumed_env 8) ex_system ex_force ex_world)))))
  = Kernel.contextImpl (Kernel.self ex_world)
  /\ log_of (snd (Kernel.initialize (plumed_env 8) ex_system ex_force
       (snd (Kernel.execute_all (plumed_env 8) [ex_context 0; ex_context 1]
               (snd (Kernel.initialize (plumed_env 8) ex_system ex_force ex_world))))))
     = log_of (snd (Kernel.initialize (plumed_env 8) ex_system ex_force ex_world)).
Proof.
  assert (H : Kernel.contextImpl (Kernel.self
    (snd (Kernel.execute_all (plumed_env 8) [ex_context 0; ex_context 1]
            (snd (Kernel.initialize (plumed_env 8) ex_system ex_force ex_world)))))
  = Kernel.contextImpl (Kernel.self ex_world)) by (vm_compute; reflexivity).
  split; [exact H|].
  exact (initialize_starts_new_interpreter (plumed_env 8) ex_system ex_force _ _ H).
Defined.

(** ** The lines submitted one by one *)

Section SubmittedLines.
Variable env : Environment.

Lemma has_delim_app a b : has_delim (a ++ b)%string = has_delim a || has_delim b.
Proof.
  induction a as [|c a IH]; cbn; [reflexivity|].
  rewrite IH, orb_assoc. reflexivity.
Qed.

(** The lines of a text are not empty, hold no delimiter, and put together
    they are the text without its delimiters. *)
Lemma lines_from_spec : forall s cur,
  has_delim cur = false ->
  Forall (fun line => line <> EmptyString /\ has_delim line = false) (lines_from cur s)
  /\ concat_lines (lines_from cur s) = (cur ++ strip_delims s)%string.
Proof.
  induction s as [|c s IH]; intros cur Hcur.
  - cbn [lines_from strip_delims]. rewrite string_app_nil.
    destruct cur as [|d cur]; cbn [concat_lines].
    + split; [constructor | reflexivity].
    + rewrite string_app_nil. split; [|reflexivity].
      constructor; [split; [discriminate | exact Hcur] | constructor].
  - cbn [lines_from strip_delims]. destruct (is_delim c) eqn:Ec.
    + destruct (IH EmptyString eq_refl) as [HF HC].
      destruct cur as [|d cur].
      * split; [exact HF | exact HC].
      * cbn [concat_lines]. rewrite HC. split; [|reflexivity].
        constructor; [split; [discriminate | exact Hcur] | exact HF].
    + assert (Hc' : has_delim (cur ++ String c EmptyString) = false).
      { rewrite has_delim_app, Hcur. cbn. rewrite Ec. reflexivity. }
      destruct (IH _ Hc') as [HF HC]. split; [exact HF|].
      rewrite HC, string_app_assoc. reflexivity.
Qed.

Lemma submitted_lines_app l1 l2 :
  submitted_lines (l1 ++ l2) = submitted_lines l1 ++ submitted_lines l2.
Proof.
  induction l1 as [|c l1 IH]; cbn [app submitted_lines]; [reflexivity|].
  destruct (key_is "readInputLine" c); [|exact IH].
  destruct (cmd_val c); try exact IH. cbn. rewrite IH. reflexivity.
Qed.

Lemma submitted_lines_map lines :
  submitted_lines (map (fun line => mkCmd "readInputLine" (PStr line)) lines) = lines.
Proof. induction lines as [|l lines IH]; cbn; [reflexivity | rewrite IH; reflexivity]. Qed.

(** The lines [initialize] submits with "readInputLine": those of the script
    for the API versions 4 to 7, none otherwise. *)
Lemma initialize_submitted_lines system force w :
  submitted_lines (log_of (snd (Kernel.initialize env system force w))) =
  if (env_apiVersion env <? 4) || (7 <? env_apiVersion env) then []
  else script_lines (c_str (PlumedForce.getScript force)).
Proof.
  rewrite initialize_log. unfold grex_cmds, setup_cmds, script_cmds.
  destruct (env_apiVersion env <? 4);
    destruct (env_rank env (PlumedForce.getIntracom force) =? 0);
    destruct (0 <=? PlumedForce.getTemperature force * BOLTZ env)%float;
    destruct (7 <? env_apiVersion env);
    cbn; try reflexivity; apply submitted_lines_map.
Qed.

(** X16. [initialize] never submits an empty line, nor a line that holds a
    carriage return or a newline, with "readInputLine": blank lines of the
    script are skipped and the line terminators are never sent. *)
Theorem submitted_lines_nonempty system force w :
  Forall (fun line => line <> EmptyString /\ has_delim line = false)
    (submitted_lines (log_of (snd (Kernel.initialize env system force w)))).
Proof.
  rewrite initialize_submitted_lines.
  destruct ((env_apiVersion env <? 4) || (7 <? env_apiVersion env));
    [constructor|].
  apply (lines_from_spec (c_str (PlumedForce.getScript force)) EmptyString eq_refl).
Qed.

(** X17. For the API versions 4 to 7 the lines submitted one by one, put
    together in order, are the script (as a C string) without its carriage
    returns and newlines: nothing else is dropped, added or reordered. *)
Theorem submitted_lines_keep_text system force w :
  4 <= env_apiVersion env <= 7 ->
  concat_lines (submitted_lines (log_of (snd (Kernel.initialize env system force w))))
  = strip_delims (c_str (PlumedForce.getScript force)).
Proof.
  intros [H4 H7]. rewrite initialize_submitted_lines.
  destruct (env_apiVersion env <? 4) eqn:E4; [apply Z.ltb_lt in E4; lia|].
  destruct (7 <? env_apiVersion env) eqn:E7; [apply Z.ltb_lt in E7; lia|].
  cbn [orb].
  apply (lines_from_spec (c_str (PlumedForce.getScript force)) EmptyString eq_refl).
Qed.

Lemma c_str_app_nul a b :
  no_nul a = true -> c_str (a ++ String "000"%char b) = a.
Proof.
  induction a as [|c a IH]; cbn; [reflexivity|].
  destruct (Ascii.eqb c "000"); cbn; [discriminate|].
  intros H. rewrite IH by exact H. reflexivity.
Qed.

(** X18. A script is read up to its first NUL character: what follows it
    never reaches the interpreter. A descriptor whose script is [a], a NUL
    and anything after makes [initialize] issue the very commands it issues
    for the script [a]. *)
Theorem script_read_up_to_nul system force force' a b w :
  no_nul a = true ->
  PlumedForce.getScript force = (a ++ String "000"%char b)%string ->
  force' = PlumedForce.mk a (PlumedForce.intra_comm force)
             (PlumedForce.inter_comm force) (PlumedForce.temperature force)
             (PlumedForce.masses force) (PlumedForce.logStream force)
             (PlumedForce.restart force) ->
  Kernel.initialize env system force w = Kernel.initialize env system force' w.
Proof.
  intros Ha Hs ->.
  assert (Hc : c_str (PlumedForce.getScript force) = a)
    by (rewrite Hs; apply c_str_app_nul; exact Ha).
  assert (Hc' : c_str a = a) by (apply c_str_no_nul; exact Ha).
  rewrite !initialize_run.
  unfold before_masses, script_cmds, grex_cmds, setup_cmds, interfaced.
  cbn [PlumedForce.getScript PlumedForce.script PlumedForce.getIntracom
       PlumedForce.getIntercom PlumedForce.getTemperature PlumedForce.getMasses
       PlumedForce.getLogStream PlumedForce.getRestart PlumedForce.intra_comm
       PlumedForce.inter_comm PlumedForce.temperature PlumedForce.masses
       PlumedForce.logStream PlumedForce.restart].
  rewrite Hc, Hc'. reflexivity.
Qed.

End SubmittedLines.

Lemma submitted_lines_keep_text_witness :
  4 <= env_apiVersion (plumed_env 5) <= 7
  /\ concat_lines (submitted_lines
       (log_of (snd (Kernel.initialize (plumed_env 5) ex_system ex_force ex_world))))
     = strip_delims (c_str (PlumedForce.getScript ex_force)).
Proof.
  assert (H : 4 <= env_apiVersion (plumed_env 5) <= 7) by (cbn; lia).
  split; [exact H|].
  exact (submitted_lines_keep_text (plumed_env 5) ex_system ex_force ex_world H).
Defined.

Lemma script_read_up_to_nul_witness :
  no_nul "d: DISTANCE ATOMS=1,2" = true
  /\ PlumedForce.getScript
       (PlumedForce.mk ("d: DISTANCE ATOMS=1,2" ++ String "000"%char "PRINT ARG=d")
          91 92 (-1)%float [] stdout false)
     = ("d: DISTANCE ATOMS=1,2" ++ String "000"%char "PRINT ARG=d")%string
  /\ Kernel.initialize (plumed_env 8) ex_system
       (PlumedForce.mk ("d: DISTANCE ATOMS=1,2" ++ String "000"%char "PRINT ARG=d")
          91 92 (-1)%float [] stdout false) ex_world
     = Kernel.initialize (plumed_env 8) ex_system
         (PlumedForce.mk "d: DISTANCE ATOMS=1,2" 91 92 (-1)%float [] stdout false)
         ex_world.
Proof.
  assert (Ha : no_nul "d: DISTANCE ATOMS=1,2" = true) by reflexivity.
  assert (Hs : PlumedForce.getScript
       (PlumedForce.mk ("d: DISTANCE ATOMS=1,2" ++ String "000"%char "PRINT ARG=d")
          91 92 (-1)%float [] stdout false)
     = ("d: DISTANCE ATOMS=1,2" ++ String "000"%char "PRINT ARG=d")%string)
    by reflexivity.
  split; [exact Ha | split; [exact Hs |]].
  exact (script_read_up_to_nul (plumed_env 8) ex_system _ _ _ _ ex_world Ha Hs eq_refl).
Defined.

(** ** The payload of "setKbT" *)

Section ThermalEnergy.
Variable env : Environment.

Lemma SFeqb_refl_false x : SFeqb x x = false -> x = S754_nan.
Proof.
  unfold SFeqb. destruct x as [s|s| |s m e]; cbn; try discriminate; [| reflexivity |].
  - destruct s; discriminate.
  - rewrite Z.compare_refl, Pos.compare_cont_refl. destruct s; discriminate.
Qed.

(** The product of a NaN and anything does not compare [>= 0]. *)
Lemma mul_nan (T B : float) :
  (T =? T)%float = false -> (0 <=? T * B)%float = false.
Proof.
  rewrite FloatAxioms.eqb_spec, leb_spec, mul_spec. intros H.
  apply SFeqb_refl_false in H. rewrite H.
  change (Prim2SF 0) with (S754_zero false).
  destruct (Prim2SF B) as [s|s| |s m e]; reflexivity.
Qed.

(** X19. Once the version check has passed, for a temperature [T] that is
    not negative ([T >= 0.0], -0.0 included) and a positive finite [BOLTZ],
    "setKbT" is pushed exactly once and carries the double product of [T]
    and [BOLTZ]. *)
Theorem thermal_energy_payload system force w :
  4 <= env_apiVersion env ->
  (0 <? BOLTZ env)%float = true -> (BOLTZ env <? infinity)%float = true ->
  (0 <=? PlumedForce.getTemperature force)%float = true ->
  payloads_of "setKbT" (log_of (snd (Kernel.initialize env system force w))) =
  [PDouble (PlumedForce.getTemperature force * BOLTZ env)%float].
Proof.
  intros Hv Hb Hf HT. rewrite initialize_payloads by reflexivity.
  destruct (env_apiVersion env <? 4) eqn:E; [apply Z.ltb_lt in E; lia|].
  pose proof (mul_nonneg _ _ HT Hb Hf) as HkT.
  unfold grex_cmds, setup_cmds. rewrite HkT.
  destruct (env_rank env (PlumedForce.getIntracom force) =? 0); reflexivity.
Qed.

(** X20. A temperature that is not a number is treated as undefined: for a
    NaN temperature "setKbT" is never pushed, whatever [BOLTZ] and the API
    version are. *)
Theorem nan_temperature_not_pushed system force w :
  (PlumedForce.getTemperature force =? PlumedForce.getTemperature force)%float = false ->
  payloads_of "setKbT" (log_of (snd (Kernel.initialize env system force w))) = [].
Proof.
  intros HT. rewrite initialize_payloads by reflexivity.
  unfold grex_cmds, setup_cmds. rewrite (mul_nan _ (BOLTZ env) HT).
  destruct (env_rank env (PlumedForce.getIntracom force) =? 0);
    destruct (env_apiVersion env <? 4); reflexivity.
Qed.

End ThermalEnergy.

Lemma thermal_energy_payload_witness :
  4 <= env_apiVersion (plumed_env 8)
  /\ (0 <? BOLTZ (plumed_env 8))%float = true
  /\ (BOLTZ (plumed_env 8) <? infinity)%float = true
  /\ (0 <=? PlumedForce.getTemperature
              (PlumedForce.setTemperature 300%float ex_force))%float = true
  /\ payloads_of "setKbT"
       (log_of (snd (Kernel.initialize (plumed_env 8) ex_system
                       (PlumedForce.setTemperature 300%float ex_force) ex_world)))
     = [PDouble (PlumedForce.getTemperature
                   (PlumedForce.setTemperature 300%float ex_force)
                 * BOLTZ (plumed_env 8))%float].
Proof.
  assert (Hv : 4 <= env_apiVersion (plumed_env 8)) by (cbn; lia).
  assert (Hb : (0 <? BOLTZ (plumed_env 8))%float = true) by (vm_compute; reflexivity).
  assert (Hf : (BOLTZ (plumed_env 8) <? infinity)%float = true)
    by (vm_compute; reflexivity).
  assert (HT : (0 <=? PlumedForce.getTemperature
                        (PlumedForce.setTemperature 300%float ex_force))%float = true)
    by (vm_compute; reflexivity).
  split; [exact Hv | split; [exact Hb | split; [exact Hf | split; [exact HT |]]]].
  exact (thermal_energy_payload (plumed_env 8) ex_system
           (PlumedForce.setTemperature 300%float ex_force) ex_world Hv Hb Hf HT).
Defined.

Lemma nan_temperature_not_pushed_witness :
  (PlumedForce.getTemperature (PlumedForce.setTemperature nan ex_force)
   =? PlumedForce.getTemperature (PlumedForce.setTemperature nan ex_force))%float = false
  /\ payloads_of "setKbT"
       (log_of (snd (Kernel.initialize (plumed_env 8) ex_system
                       (PlumedForce.setTemperature nan ex_force) ex_world)))
     = [].
Proof.
  assert (HT : (PlumedForce.getTemperature (PlumedForce.setTemperature nan ex_force)
                =? PlumedForce.getTemperature (PlumedForce.setTemperature nan ex_force))%float
               = false) by (vm_compute; reflexivity).
  split; [exact HT|].
  exact (nan_temperature_not_pushed (plumed_env 8) ex_system
           (PlumedForce.setTemperature nan ex_force) ex_world HT).
Defined.

(** ** A [PlumedForce] in a system *)

(** X21. Since a [PlumedForce] reports no periodic boundary conditions, it
    never makes a system periodic: with the disjunction over its forces that
    [System::usesPeriodicBoundaryConditions()] computes, a system is periodic
    with a [PlumedForce] among its forces exactly when it is without it, and
    a kernel initialised on either system pushes the box in the same
    calls. *)
Theorem plumed_force_keeps_periodicity env masses fs1 f fs2 force w context
    includeForces includeEnergy :
  4 <= env_apiVersion env ->
  let system := mkSystem masses (fs1 ++ FPlumed f :: fs2) in
  let system' := mkSystem masses (fs1 ++ fs2) in
  let w1 := snd (Kernel.initialize env system force w) in
  let w1' := snd (Kernel.initialize env system' force w) in
  System_usesPeriodicBoundaryConditions system
  = System_usesPeriodicBoundaryConditions system'
  /\ count_cmd "setBox"
       (issued w1 (snd (Kernel.execute env context includeForces includeEnergy w1)))
     = count_cmd "setBox"
         (issued w1' (snd (Kernel.execute env context includeForces includeEnergy w1'))).
Proof.
  intros Hv system system' w1 w1'.
  assert (Hp : System_usesPeriodicBoundaryConditions system
               = System_usesPeriodicBoundaryConditions system').
  { unfold System_usesPeriodicBoundaryConditions, system, system'. cbn [sys_forces].
    rewrite !existsb_app. cbn. reflexivity. }
  split; [exact Hp|].
  rewrite !issued_execute, !count_setBox_execute_cmds.
  subst w1 w1'. rewrite !initialize_usesPeriodic by exact Hv.
  rewrite Hp. reflexivity.
Qed.

Lemma plumed_force_keeps_periodicity_witness :
  4 <= env_apiVersion (plumed_env 8)
  /\ (let system := mkSystem [1%float; 2%float] ([FOther true] ++ FPlumed ex_force :: []) in
      let system' := mkSystem [1%float; 2%float] ([FOther true] ++ []) in
      let w1 := snd (Kernel.initialize (plumed_env 8) system ex_force ex_world) in
      let w1' := snd (Kernel.initialize (plumed_env 8) system' ex_force ex_world) in
      System_usesPeriodicBoundaryConditions system
      = System_usesPeriodicBoundaryConditions system'
      /\ count_cmd "setBox"
           (issued w1 (snd (Kernel.execute (plumed_env 8) (ex_context 1) true true w1)))
         = count_cmd "setBox"
             (issued w1' (snd (Kernel.execute (plumed_env 8) (ex_context 1) true true
                                 w1')))).
Proof.
  assert (Hv : 4 <= env_apiVersion (plumed_env 8)) by (cbn; lia).
  split; [exact Hv|].
  exact (plumed_force_keeps_periodicity (plumed_env 8) [1%float; 2%float]
           [FOther true] ex_force [] ex_force ex_world (ex_context 1) true true Hv).
Defined.
